(** * download_bucket_files.py: entry classification, capped listing and
      the download driver, as a shallow embedding.

    The Python module probes three S3 client libraries (aioboto3, aioaws,
    obstore), lists a bucket through each of them up to a cap and feeds the
    listed keys to a per-backend download loop.  Python values are modelled
    by a small universe, dictionaries by [gmap string pyval], and the
    functions by a monad that threads their local variables, collects what
    they print and request, and carries exceptions.  The answers of the
    network, the file system and the command line come from an explicit
    [world] of oracles, so a run is a function of the configuration and the
    world. *)

From stdpp Require Import base strings gmap list option.
From Stdlib Require Import ZArith Lia.

Open Scope string_scope.
Open Scope Z_scope.

(** ** Python values and exceptions *)

(** The values a listing entry's fields take: [None], an [int], a [str]. *)
Inductive pyval : Type :=
  | VNone
  | VInt (z : Z)
  | VStr (s : string).

(** A raw entry handed to the classifier: a plain value (the download
    loops pass bare [str] keys), a [dict], or an object with attributes. *)
Inductive entry : Type :=
  | EVal (v : pyval)
  | EDict (d : gmap string pyval)
  | EObj (attrs : gmap string pyval).

(** Exceptions, with the text [str(e)] shows.  [Error] stands for whatever a
    client library or the operating system raises ([ClientError],
    [HTTPStatusError], [OSError], ...): all of them derive from
    [Exception].  [SystemExit] does not. *)
Inductive exn : Type :=
  | TypeError (msg : string)
  | AttributeError (msg : string)
  | KeyError (k : string)
  | SystemExit (code : Z)
  | Error (cls msg : string).

Inductive result (A : Type) : Type :=
  | Ok (a : A)
  | Raise (e : exn).
Arguments Ok {A} a.
Arguments Raise {A} e.

#[global] Instance result_ret : MRet result := fun _ a => Ok a.
#[global] Instance result_bind : MBind result := fun _ _ f m =>
  match m with
  | Ok a => f a
  | Raise e => Raise e
  end.

#[global] Instance pyval_eq_dec : EqDecision pyval.
Proof. solve_decision. Defined.
#[global] Instance exn_eq_dec : EqDecision exn.
Proof. solve_decision. Defined.

Module Py.

(** [s.endswith(suffix)] on two [str]. *)
Definition endswith (s suffix : string) : bool :=
  let n := String.length s in
  let m := String.length suffix in
  (m <=? n)%nat && String.eqb (String.substring (n - m) m s) suffix.

(** [type(v).__name__] *)
Definition type_name (v : pyval) : string :=
  match v with
  | VNone => "NoneType"
  | VInt _ => "int"
  | VStr _ => "str"
  end.

Definition no_attribute (cls name : string) : exn :=
  AttributeError ("'" ++ cls ++ "' object has no attribute '" ++ name ++ "'").

Definition not_supported (op : string) (v : pyval) : exn :=
  TypeError ("'" ++ op ++ "' not supported between instances of '"
             ++ type_name v ++ "' and 'int'").

(** [v.endswith(suffix)]: only [str] has the method. *)
Definition endswith_val (v : pyval) (suffix : string) : result bool :=
  match v with
  | VStr s => Ok (endswith s suffix)
  | VNone | VInt _ => Raise (no_attribute (type_name v) "endswith")
  end.

(** [v > 0]: ordering against an [int] is defined for [int] only. *)
Definition gt0 (v : pyval) : result bool :=
  match v with
  | VInt z => Ok (0 <? z)
  | VNone | VStr _ => Raise (not_supported ">" v)
  end.

Definition is_none (v : pyval) : bool :=
  match v with VNone => true | _ => false end.

(** Truth value of a Python value ([bool(v)]). *)
Definition truthy (v : pyval) : bool :=
  match v with
  | VNone => false
  | VInt z => negb (z =? 0)
  | VStr s => negb (String.eqb s EmptyString)
  end.

(** [a and b] on already-typed booleans: [b] is only evaluated, and can
    only raise, when [a] is true. *)
Definition and_ (a : result bool) (b : result bool) : result bool :=
  match a with
  | Ok true => b
  | Ok false => Ok false
  | Raise e => Raise e
  end.

(** [a or b], same discipline. *)
Definition or_ (a : result bool) (b : result bool) : result bool :=
  match a with
  | Ok true => Ok true
  | Ok false => b
  | Raise e => Raise e
  end.

Definition not_ (a : result bool) : result bool :=
  match a with
  | Ok b => Ok (negb b)
  | Raise e => Raise e
  end.

(** [isinstance(entry, dict) and name in entry] *)
Definition dict_has (e : entry) (name : string) : bool :=
  match e with
  | EDict d => bool_decide (is_Some (d !! name))
  | EVal _ | EObj _ => false
  end.

(** [d.get(name, None)] on the fields of a [dict]. *)
Definition dict_get (d : gmap string pyval) (name : string) : pyval :=
  default VNone (d !! name).

(** [hasattr(entry, name)] for the attribute names the module asks for
    ([key], [size], [path]): neither [str], [int], [None] nor [dict]
    has any of them. *)
Definition hasattr (e : entry) (name : string) : bool :=
  match e with
  | EObj attrs => bool_decide (is_Some (attrs !! name))
  | EVal _ | EDict _ => false
  end.

(** [entry.name]; the class of an attribute object is not modelled, so
    the message of a miss names it [object]. *)
Definition getattr (e : entry) (name : string) : result pyval :=
  match e with
  | EObj attrs =>
      match attrs !! name with
      | Some v => Ok v
      | None => Raise (no_attribute "object" name)
      end
  | EVal v => Raise (no_attribute (type_name v) name)
  | EDict _ => Raise (no_attribute "dict" name)
  end.

(** [entry.get(name, None)]: a method of [dict]. *)
Definition get (e : entry) (name : string) : result pyval :=
  match e with
  | EDict d => Ok (dict_get d name)
  | EVal v => Raise (no_attribute (type_name v) "get")
  | EObj _ => Raise (no_attribute "object" "get")
  end.

(** [entry[name]] on a [dict]. *)
Definition subscript (e : entry) (name : string) : result pyval :=
  match e with
  | EDict d =>
      match d !! name with
      | Some v => Ok v
      | None => Raise (KeyError name)
      end
  | EVal (VStr _) => Raise (TypeError "string indices must be integers")
  | EVal v =>
      Raise (TypeError ("'" ++ type_name v ++ "' object is not subscriptable"))
  | EObj _ => Raise (TypeError "'object' object is not subscriptable")
  end.

(** [str(e)] of an exception. *)
Definition str_exn (e : exn) : string :=
  match e with
  | TypeError msg | AttributeError msg | Error _ msg => msg
  | KeyError k => "'" ++ k ++ "'"
  | SystemExit _ => EmptyString
  end.

(** [except Exception] catches everything but [SystemExit]. *)
Definition is_Exception (e : exn) : bool :=
  match e with
  | SystemExit _ => false
  | _ => true
  end.

(** [needle in haystack] on two [str]. *)
Fixpoint contains (needle haystack : string) : bool :=
  String.prefix needle haystack ||
  match haystack with
  | EmptyString => false
  | String _ rest => contains needle rest
  end.

End Py.

(** ** The classifier *)

(** [size is None or size > 0] *)
Definition size_is_none_or_positive (size : pyval) : result bool :=
  Py.or_ (Ok (Py.is_none size)) (Py.gt0 size).

(** [_is_downloadable_entry(entry)], rule by rule in the source's order. *)
Definition _is_downloadable_entry (e : entry) : result bool :=
  (* 1. aioboto3 paginator dict *)
  if Py.dict_has e "Key" then
    key ← Py.subscript e "Key";
    size ← Py.get e "Size";
    Py.and_ (Py.not_ (Py.endswith_val key "/"))
            (size_is_none_or_positive size)
  (* 2. aioaws ObjectMeta *)
  else if Py.hasattr e "key" && Py.hasattr e "size" then
    Py.and_ (Py.not_ (key ← Py.getattr e "key"; Py.endswith_val key "/"))
            (size ← Py.getattr e "size"; Py.gt0 size)
  (* 3. obstore dict format *)
  else if Py.dict_has e "path" then
    key ← Py.get e "path";
    size ← Py.get e "size";
    Py.and_ (Ok (negb (Py.is_none key)))
            (Py.and_ (Py.not_ (Py.endswith_val key "/"))
                     (size_is_none_or_positive size))
  (* 4. obstore ObjectMeta *)
  else if Py.hasattr e "path" && Py.hasattr e "size" then
    Py.and_ (Py.not_ (path ← Py.getattr e "path"; Py.endswith_val path "/"))
            (size ← Py.getattr e "size"; Py.gt0 size)
  else Ok false.

(** The four recognised raw shapes carrying one logical key and size;
    [None] for the size is Python's [None] in the field. *)
Definition size_val (size : option Z) : pyval :=
  match size with Some z => VInt z | None => VNone end.

Definition aioboto3_dict (key : string) (size : option Z) : entry :=
  EDict (<["Key" := VStr key]> (<["Size" := size_val size]> ∅)).

Definition aioaws_object (key : string) (size : option Z) : entry :=
  EObj (<["key" := VStr key]> (<["size" := size_val size]> ∅)).

Definition obstore_dict (key : string) (size : option Z) : entry :=
  EDict (<["path" := VStr key]> (<["size" := size_val size]> ∅)).

Definition obstore_object (key : string) (size : option Z) : entry :=
  EObj (<["path" := VStr key]> (<["size" := size_val size]> ∅)).

(** The mapping shapes with the size field left out altogether. *)
Definition aioboto3_dict_nosize (key : string) : entry :=
  EDict (<["Key" := VStr key]> ∅).

Definition obstore_dict_nosize (key : string) : entry :=
  EDict (<["path" := VStr key]> ∅).

(** ** Effects: console, client libraries, file system *)

Inductive backend : Type := Aioboto3 | Aioaws | Obstore.

(** What the program asks of a client library. *)
Inductive call : Type :=
  | StsGetCallerIdentity
  | ListProbe (b : backend)
  | ListPage (b : backend)
  | GetObject (b : backend) (key : pyval).

(** A value handed to [print]. *)
Inductive parg : Type :=
  | PObj (e : entry)
  | PReprObj (e : entry)
  | PExn (e : exn)
  | PReprExn (e : exn).

Definition pstr (s : string) : parg := PObj (EVal (VStr s)).
Definition pint (z : Z) : parg := PObj (EVal (VInt z)).

(** One observable step.  A printed line is its text with [{}] where a
    value is interpolated, and the values; [Backend c] is one request to a
    client library (for a listing: one element asked of its iterator). *)
Inductive event : Type :=
  | Stdout (text : string) (args : list parg)
  | Stderr (text : string) (args : list parg)
  | Backend (c : call)
  | Mkdir (path : string).

(** A computation over the local variables [S] of the function it belongs
    to: what it printed and requested, the variables as it left them, and
    its value or the exception that left it.  The variables survive an
    exception, as a list appended to inside a [try] does. *)
Definition M (S A : Type) : Type := S → list event * S * result A.

#[global] Instance M_ret {S : Type} : MRet (M S) := fun _ a s => ([], s, Ok a).
#[global] Instance M_bind {S : Type} : MBind (M S) := fun _ _ f m s =>
  match m s with
  | (log, s', Ok a) =>
      let '(log', s'', r) := f a s' in ((log ++ log')%list, s'', r)
  | (log, s', Raise e) => (log, s', Raise e)
  end.

Definition emit {S : Type} (ev : event) : M S unit := fun s => ([ev], s, Ok tt).
Definition raise {S A : Type} (e : exn) : M S A := fun s => ([], s, Raise e).
Definition lift {S A : Type} (r : result A) : M S A := fun s => ([], s, r).
Definition get {S : Type} : M S S := fun s => ([], s, Ok s).
Definition modify {S : Type} (f : S → S) : M S unit := fun s => ([], f s, Ok tt).
Definition print {S : Type} (text : string) (args : list parg) : M S unit :=
  emit (Stdout text args).

(** A function body: it starts from its own fresh variables and leaves the
    caller's untouched. *)
Definition locals {S S' A : Type} (init : S') (body : M S' A) : M S A :=
  fun s => let '(log, _, r) := body init in (log, s, r).

(** [try: body except Exception as e: handler(e)] *)
Definition try_except {S A : Type} (body : M S A) (handler : exn → M S A)
    : M S A :=
  fun s =>
    match body s with
    | (log, s', Raise e) =>
        if Py.is_Exception e
        then let '(log', s'', r) := handler e s' in ((log ++ log')%list, s'', r)
        else (log, s', Raise e)
    | finished => finished
    end.

(** Loops: a body says whether the loop goes on ([continue], or its end
    reached) or [break]s. *)
Inductive flow : Type := Next | Break.

(** [for x in xs: body] *)
Fixpoint for_in {A S : Type} (xs : list A) (body : A → M S flow) : M S unit :=
  match xs with
  | [] => mret tt
  | x :: rest =>
      f ← body x;
      match f with
      | Break => mret tt
      | Next => for_in rest body
      end
  end.

(** What an asynchronous iterator of a client library delivers: some
    elements, then its end or an exception. *)
Record stream (A : Type) : Type := Stream {
  items : list A;
  failure : option exn
}.
Arguments Stream {A} items failure.
Arguments items {A} s.
Arguments failure {A} s.

Fixpoint async_for_items {A S : Type} (c : call) (xs : list A)
    (fail : option exn) (body : A → M S flow) : M S unit :=
  match xs with
  | [] =>
      emit (Backend c);;
      match fail with
      | Some e => raise e
      | None => mret tt
      end
  | x :: rest =>
      emit (Backend c);;
      f ← body x;
      match f with
      | Break => mret tt
      | Next => async_for_items c rest fail body
      end
  end.

(** [async for x in it: body] *)
Definition async_for {A S : Type} (c : call) (it : stream A)
    (body : A → M S flow) : M S unit :=
  async_for_items c (items it) (failure it) body.

(** ** Configuration and the outside world *)

(** The module-level constants read from the environment. *)
Record config : Type := Config {
  AWS_ACCESS_KEY_ID : option string;
  AWS_SECRET_ACCESS_KEY : option string;
  AWS_REGION : string;
  S3_TEST_BUCKET : string;
  DEFAULT_MAX_ITEMS : Z
}.

(** [parser.parse_args()]: [--limit] when it was given, and [--outdir], as
    the text of the path [main] makes of it (expanded and resolved). *)
Record args : Type := Args {
  limit : option Z;
  outdir : string
}.

(** The answer of STS. *)
Record identity : Type := Identity {
  Account : string;
  Arn : string;
  UserId : string
}.

(** A page of [list_objects_v2]: its ["Contents"], when it has the field. *)
Definition page : Type := option (list entry).

(** Everything outside the process, as the answers it will give.  What
    [argparse] itself writes when it refuses the command line (its usage and
    error lines on stderr, before [SystemExit(2)]) is not part of the
    model: [parse_args] is its result alone. *)
Record world : Type := World {
  parse_args : result args;
  sts_get_caller_identity : result identity;
  aioaws_probe : stream entry;
  obstore_probe : stream (list entry);
  aioboto3_pages : stream page;
  aioaws_objects : stream entry;
  obstore_batches : stream (list entry);
  (** the body of a download's [try]: [None] when the object was fetched
      and written, the exception otherwise *)
  fetch : backend → pyval → option exn;
  mkdir : string → option exn;
  (** [str(x)] of a value that is not a [str] *)
  str_of : entry → string
}.

(** [pathlib] on POSIX, paths as their text; the normalisation [Path]
    applies to its segments is not modelled. *)
Module Path.

(** [p / name] for a [Path] [p], given as the text [str(p)] shows, and one
    plain segment [name]: the root ([/], and [//], which POSIX keeps) takes
    no second separator, and the current directory [.] disappears. *)
Definition joinpath (p name : string) : string :=
  if String.eqb p "." then name
  else if Py.endswith p "/" then p ++ name
  else p ++ "/" ++ name.

(** [base / key] *)
Definition truediv (base : string) (key : pyval) : result string :=
  match key with
  | VStr s => Ok (if String.prefix "/" s then s else base ++ "/" ++ s)
  | VNone | VInt _ =>
      Raise (TypeError ("unsupported operand type(s) for /: 'PosixPath' and '"
                        ++ Py.type_name key ++ "'"))
  end.

(** [p.parent]: [p] up to its last separator. *)
Fixpoint parent (p : string) : string :=
  match p with
  | EmptyString => EmptyString
  | String c rest =>
      if Py.contains "/" rest then String c (parent rest) else EmptyString
  end.

End Path.

Definition backend_name (b : backend) : string :=
  match b with
  | Aioboto3 => "aioboto3"
  | Aioaws => "aioaws"
  | Obstore => "obstore"
  end.

(** ** The program *)

Section Program.

Context (cfg : config) (w : world).

(** Truth value of an environment variable: unset and empty are false. *)
Definition env_truthy (value : option string) : bool :=
  match value with
  | Some s => negb (String.eqb s EmptyString)
  | None => false
  end.

Definition bucket_set : bool :=
  negb (String.eqb (S3_TEST_BUCKET cfg) EmptyString).

Definition bucket : parg := PReprObj (EVal (VStr (S3_TEST_BUCKET cfg))).

(** [str(x)] *)
Definition py_str (x : entry) : string :=
  match x with
  | EVal (VStr s) => s
  | _ => str_of w x
  end.

(** [p.mkdir(parents=True, exist_ok=True)] *)
Definition do_mkdir {S : Type} (p : string) : M S unit :=
  emit (Mkdir p);;
  match mkdir w p with
  | Some e => raise e
  | None => mret tt
  end.

Definition _require_creds {S : Type} : M S unit :=
  let missing :=
    map fst
      (List.filter (fun nv => negb (env_truthy (snd nv)))
         [("AWS_ACCESS_KEY_ID", AWS_ACCESS_KEY_ID cfg);
          ("AWS_SECRET_ACCESS_KEY", AWS_SECRET_ACCESS_KEY cfg)]) in
  match missing with
  | [] => mret tt
  | _ :: _ =>
      emit (Stderr "Missing required env vars:"
              [pstr (String.concat ", " missing)]);;
      raise (SystemExit 1)
  end.

(** *** Sanity checks *)

Definition check_aioboto3_sts {S : Type} : M S unit :=
  locals tt (
    print "\n=== aioboto3: STS GetCallerIdentity ===" [];;
    emit (Backend StsGetCallerIdentity);;
    resp ← lift (sts_get_caller_identity w);
    print "  Account :" [pstr (Account resp)];;
    print "  ARN     :" [pstr (Arn resp)];;
    print "  UserId  :" [pstr (UserId resp)];;
    print "  -> aioboto3 credentials are valid" []).

Definition check_aioaws_s3 {S : Type} : M S unit :=
  locals 0 (
    print "\n=== aioaws: S3 list sanity check on bucket {!r} ===" [bucket];;
    if negb bucket_set then
      print "  S3_TEST_BUCKET not set; skipping aioaws S3 check." []
    else
      try_except
        (modify (fun _ => 0);;
         async_for (ListProbe Aioaws) (aioaws_probe w) (fun obj =>
           key ← lift (Py.getattr obj "key");
           print "  First key from list():" [PObj (EVal key)];;
           modify (fun count => count + 1);;
           count ← get;
           if 1 <=? count then mret Break else mret Next);;
         count ← get;
         (if count =? 0
          then print "  list() returned no objects, but request was accepted." []
          else mret tt);;
         print "  -> aioaws S3 request signed & accepted" [])
        (fun e => print "  aioaws S3 call failed:" [PReprExn e])).

(** The name an obstore entry is shown and listed under. *)
Definition obstore_name (e : entry) : entry :=
  match e with
  | EDict d =>
      (* first.get("path") or first *)
      let path := Py.dict_get d "path" in
      if Py.truthy path then EVal path else e
  | EVal _ | EObj _ =>
      (* getattr(first, "path", str(first)) *)
      match Py.getattr e "path" with
      | Ok v => EVal v
      | Raise _ => EVal (VStr (py_str e))
      end
  end.

Definition check_obstore_s3 {S : Type} : M S unit :=
  locals 0 (
    print "\n=== obstore: S3Store list_async sanity check on bucket {!r} ==="
      [bucket];;
    if negb bucket_set then
      print "  S3_TEST_BUCKET not set; skipping obstore S3 check." []
    else
      try_except
        (modify (fun _ => 0);;
         async_for (ListProbe Obstore) (obstore_probe w) (fun batch =>
           modify (fun batch_count => batch_count + 1);;
           match batch with
           | [] => mret Next
           | first :: _ =>
               print "  First path from list_async():" [PObj (obstore_name first)];;
               print "  -> obstore S3 request signed & accepted" [];;
               mret Break
           end);;
         batch_count ← get;
         if batch_count =? 0
         then print "  list_async() returned no batches, but request was accepted." []
         else mret tt)
        (fun e =>
           let msg := Py.str_exn e in
           if Py.contains "NoSuchBucket" msg
           then print "  -> credentials are OK, but bucket does not exist or is wrong:"
                  [pstr (S3_TEST_BUCKET cfg)]
           else print "  obstore S3 call failed:" [pstr msg])).

(** *** Listings *)

(** The local variables of a listing: [keys] and [count]. *)
Definition listing : Type := list pyval * Z.

(** [keys.append(key); count += 1] *)
Definition append_key (key : pyval) (st : listing) : listing :=
  ((st.1 ++ [key])%list, st.2 + 1).

(** [if count >= max_items: break] *)
Definition break_at (max_items : Z) : M listing flow :=
  st ← get;
  if max_items <=? st.2 then mret Break else mret Next.

(** The body of [for obj in contents] of the aioboto3 listing. *)
Definition aioboto3_object (max_items : Z) (obj : entry) : M listing flow :=
  key ← lift (Py.subscript obj "Key");
  print "  -" [PObj (EVal key)];;
  modify (append_key key);;
  break_at max_items.

(** The body of [async for page in paginator.paginate(...)]. *)
Definition aioboto3_page (max_items : Z) (pg : page) : M listing flow :=
  let contents := default [] pg in
  for_in contents (aioboto3_object max_items);;
  break_at max_items.

Definition list_aioboto3_contents {S : Type} (max_items : Z)
    : M S (list pyval) :=
  locals (([], 0) : listing) (
    print ("\n=== aioboto3: listing up to {} objects (Downloading only files) "
             ++ "from bucket {!r} ===") [pint max_items; bucket];;
    if negb bucket_set then
      print "  S3_TEST_BUCKET not set; skipping." [];;
      mret []
    else
      async_for (ListPage Aioboto3) (aioboto3_pages w)
        (aioboto3_page max_items);;
      st ← get;
      print "  -> aioboto3 listed {} objects (limit {})." [pint st.2; pint max_items];;
      mret st.1).

Definition list_aioaws_contents {S : Type} (max_items : Z)
    : M S (list pyval) :=
  locals (([], 0) : listing) (
    print ("\n=== aioaws: listing up to {} objects (Downloading only files) "
             ++ "from bucket {!r} ===") [pint max_items; bucket];;
    if negb bucket_set then
      print "  S3_TEST_BUCKET not set; skipping." [];;
      mret []
    else
      try_except
        (async_for (ListPage Aioaws) (aioaws_objects w) (fun obj =>
           shown ← lift (Py.getattr obj "key");
           print "  -" [PObj (EVal shown)];;
           key ← lift (Py.getattr obj "key");
           modify (append_key key);;
           break_at max_items);;
         st ← get;
         print "  -> aioaws listed {} objects (limit {})."
           [pint st.2; pint max_items])
        (fun e => print "  aioaws bucket listing failed:" [PExn e]);;
      st ← get;
      mret st.1).

Definition list_obstore_contents {S : Type} (max_items : Z)
    : M S (list pyval) :=
  locals (([], 0) : listing) (
    print ("\n=== obstore: listing up to {} objects (Downloading only files) "
             ++ "from bucket {!r} ===") [pint max_items; bucket];;
    if negb bucket_set then
      print "  S3_TEST_BUCKET not set; skipping." [];;
      mret []
    else
      try_except
        (async_for (ListPage Obstore) (obstore_batches w) (fun batch =>
           for_in batch (fun e =>
             let key := VStr (py_str (obstore_name e)) in
             print "  -" [PObj (EVal key)];;
             modify (append_key key);;
             break_at max_items);;
           break_at max_items);;
         st ← get;
         print "  -> obstore listed {} objects (limit {})."
           [pint st.2; pint max_items])
        (fun e => print "  obstore bucket listing failed:" [PExn e]);;
      st ← get;
      mret st.1).

(** *** Downloads *)

(** The [try] of the download loops: fetch the object and write it, or
    report the failure.  The three functions differ in the client they
    fetch with ([fetch w b]) and in the backend's name. *)
Definition fetch_and_write {S : Type} (b : backend) (key : pyval)
    (local_path : string) : M S unit :=
  try_except
    (emit (Backend (GetObject b key));;
     match fetch w b key with
     | Some e => raise e
     | None => mret tt
     end;;
     print "  downloaded: {} -> {}" [PObj (EVal key); pstr local_path])
    (fun e =>
       print ("  FAILED to download {!r} via " ++ backend_name b ++ ":")
         [PReprObj (EVal key); PExn e]).

(** The body of the download loops, one key. *)
Definition download_key {S : Type} (b : backend) (base : string)
    (key : pyval) : M S flow :=
  ok ← lift (_is_downloadable_entry (EVal key));
  if negb ok then mret Next   (* continue *)
  else
    local_path ← lift (Path.truediv base key);
    do_mkdir (Path.parent local_path);;
    fetch_and_write b key local_path;;
    mret Next.

Definition download_files {S : Type} (b : backend) (keys : list pyval)
    (outdir : string) : M S unit :=
  locals tt (
    let base := Path.joinpath outdir (backend_name b) in
    do_mkdir base;;
    print ("\n=== " ++ backend_name b ++ ": downloading {} objects into {} ===")
      [pint (Z.of_nat (length keys)); pstr base];;
    match keys with
    | [] => print "  (no keys to download)" []
    | _ :: _ => for_in keys (download_key b base)
    end).

Definition download_aioboto3_files {S : Type} := @download_files S Aioboto3.
Definition download_aioaws_files {S : Type} := @download_files S Aioaws.
Definition download_obstore_files {S : Type} := @download_files S Obstore.

(** *** Main *)

Definition main : M unit unit :=
  _require_creds;;
  a ← lift (parse_args w);
  let max_items := default (DEFAULT_MAX_ITEMS cfg) (limit a) in
  let outdir := outdir a in
  do_mkdir outdir;;
  (* Auth checks *)
  check_aioboto3_sts;;
  check_aioaws_s3;;
  check_obstore_s3;;
  (* Bucket listings (limited) *)
  aioboto_keys ← list_aioboto3_contents max_items;
  aioaws_keys ← list_aioaws_contents max_items;
  obstore_keys ← list_obstore_contents max_items;
  (* Downloads *)
  download_aioboto3_files aioboto_keys outdir;;
  download_aioaws_files aioaws_keys outdir;;
  download_obstore_files obstore_keys outdir.

End Program.

(** [asyncio.run(main())]: what [main] printed and requested, and the
    status the process exits with.  The traceback the interpreter writes to
    stderr for an exception that leaves [main] is not part of the output
    modelled. *)
Definition exit_status (r : result unit) : Z :=
  match r with
  | Ok _ => 0
  | Raise (SystemExit code) => code
  | Raise _ => 1
  end.

Definition run (cfg : config) (w : world) : list event * Z :=
  let '(log, _, r) := main cfg w tt in (log, exit_status r).

(** ** auth.py: the probes and the listings alone

    [auth.py] has the credential gate and the three probes of
    [download_bucket_files.py] word for word (they are the definitions
    above), listings that print the keys without collecting them, and a
    [main] that reads the limit from [sys.argv] itself. *)
Module Auth.

Section Program.

Context (cfg : config) (w : world).

(** [sys.argv[1:]], and [int(text)]: the number, or [None] where Python
    raises [ValueError]. *)
Context (argv : list string) (int_of : string → option Z).

(** [if count >= max_items: break] over the one local [count]. *)
Definition break_at (max_items : Z) : M Z flow :=
  count ← get;
  if max_items <=? count then mret Break else mret Next.

Definition list_aioboto3_contents {S : Type} (max_items : Z) : M S unit :=
  locals (0 : Z) (
    print ("\n=== aioboto3: listing up to {} objects "
             ++ "from bucket {!r} ===") [pint max_items; bucket cfg];;
    if negb (bucket_set cfg) then
      print "  S3_TEST_BUCKET not set; skipping." []
    else
      async_for (ListPage Aioboto3) (aioboto3_pages w) (fun page =>
        let contents := default [] page in
        for_in contents (fun obj =>
          key ← lift (Py.subscript obj "Key");
          print "  -" [PObj (EVal key)];;
          modify (fun count => count + 1);;
          break_at max_items);;
        break_at max_items);;
      count ← get;
      print "  -> aioboto3 listed {} objects (limit {})."
        [pint count; pint max_items]).

Definition list_aioaws_contents {S : Type} (max_items : Z) : M S unit :=
  locals (0 : Z) (
    print ("\n=== aioaws: listing up to {} objects "
             ++ "from bucket {!r} ===") [pint max_items; bucket cfg];;
    if negb (bucket_set cfg) then
      print "  S3_TEST_BUCKET not set; skipping." []
    else
      try_except
        (async_for (ListPage Aioaws) (aioaws_objects w) (fun obj =>
           key ← lift (Py.getattr obj "key");
           print "  -" [PObj (EVal key)];;
           modify (fun count => count + 1);;
           break_at max_items);;
         count ← get;
         print "  -> aioaws listed {} objects (limit {})."
           [pint count; pint max_items])
        (fun e => print "  aioaws bucket listing failed:" [PExn e])).

Definition list_obstore_contents {S : Type} (max_items : Z) : M S unit :=
  locals (0 : Z) (
    print ("\n=== obstore: listing up to {} objects "
             ++ "from bucket {!r} ===") [pint max_items; bucket cfg];;
    if negb (bucket_set cfg) then
      print "  S3_TEST_BUCKET not set; skipping." []
    else
      try_except
        (async_for (ListPage Obstore) (obstore_batches w) (fun batch =>
           for_in batch (fun e =>
             print "  -" [PObj (obstore_name w e)];;
             modify (fun count => count + 1);;
             break_at max_items);;
           break_at max_items);;
         count ← get;
         print "  -> obstore listed {} objects (limit {})."
           [pint count; pint max_items])
        (fun e => print "  obstore bucket listing failed:" [PExn e])).

(** The limit [main] settles on, and what it prints on the way: the first
    argument when it is an integer, the default otherwise. *)
Definition max_items_of_argv {S : Type} : M S Z :=
  match argv with
  | [] => mret (DEFAULT_MAX_ITEMS cfg)
  | arg :: _ =>
      match int_of arg with
      | Some n => mret n
      | None =>
          emit (Stderr "Invalid max_items {!r}; falling back to default {}"
                  [PReprObj (EVal (VStr arg)); pint (DEFAULT_MAX_ITEMS cfg)]);;
          mret (DEFAULT_MAX_ITEMS cfg)
      end
  end.

Definition main : M unit unit :=
  _require_creds cfg;;
  max_items ← max_items_of_argv;
  (* Auth checks *)
  check_aioboto3_sts w;;
  check_aioaws_s3 cfg w;;
  check_obstore_s3 cfg w;;
  (* Bucket listings (limited) *)
  list_aioboto3_contents max_items;;
  list_aioaws_contents max_items;;
  list_obstore_contents max_items.

Definition run : list event * Z :=
  let '(log, _, r) := main tt in (log, exit_status r).

End Program.

End Auth.

(** ** Reference predicate and sample runs *)

(** The downloadable predicate as the specification words it, on the
    logical key and size: a key that is no prefix marker, and a size that
    is unknown or positive.  The lemmas below compare the source's
    classifier with it shape by shape. *)
Definition is_downloadable (key : string) (size : option Z) : bool :=
  negb (Py.endswith key "/")
  && match size with
     | Some z => 0 <? z
     | None => true
     end.

(** What [None > 0] raises. *)
Definition none_gt_int : exn :=
  TypeError "'>' not supported between instances of 'NoneType' and 'int'".

(** The keys a page of well-formed objects carries. *)
Definition object_key (obj : entry) : option pyval :=
  match Py.subscript obj "Key" with
  | Ok key => Some key
  | Raise _ => None
  end.

Definition page_keys (pg : page) : list pyval :=
  omap object_key (default [] pg).

Definition pages_keys (pages : list page) : list pyval :=
  concat (map page_keys pages).

Definition well_formed_page (pg : page) : Prop :=
  Forall (fun obj => is_Some (object_key obj)) (default [] pg).

Definition is_backend_call (ev : event) : bool :=
  match ev with
  | Backend _ => true
  | Stdout _ _ | Stderr _ _ | Mkdir _ => false
  end.

(** A computation that lets nothing but an [Exception] escape, and one
    that always ends normally. *)
Definition only_exceptions {S A : Type} (m : M S A) : Prop :=
  ∀ s log s' e, m s = (log, s', Raise e) → Py.is_Exception e = true.

Definition total {S A : Type} (m : M S A) : Prop :=
  ∀ s, ∃ log s' a, m s = (log, s', Ok a).

Definition sample_cfg : config :=
  Config (Some "AKIAEXAMPLE") (Some "secret") "eu-west-1" "bkt" 100.

Definition no_secret_cfg : config :=
  Config (Some "AKIAEXAMPLE") None "eu-west-1" "bkt" 100.

Definition no_bucket_cfg : config :=
  Config (Some "AKIAEXAMPLE") (Some "secret") "eu-west-1" EmptyString 100.

Definition access_denied : exn := Error "ClientError" "AccessDenied".
Definition invalid_token : exn := Error "ClientError" "InvalidClientTokenId".

Definition sample_world : world := {|
  parse_args := Ok (Args None "/tmp/out");
  sts_get_caller_identity :=
    Ok (Identity "1234" "arn:aws:iam::1234:user/u" "AIDA");
  aioaws_probe := Stream [aioaws_object "a.txt" (Some 3)] None;
  obstore_probe := Stream [[obstore_dict "a.txt" (Some 3)]] None;
  aioboto3_pages :=
    Stream [Some [aioboto3_dict "a.txt" (Some 3); aioboto3_dict "d/" (Some 0)];
            None;
            Some [aioboto3_dict "b.txt" (Some 7)]] None;
  aioaws_objects :=
    Stream [aioaws_object "a.txt" (Some 3); aioaws_object "b.txt" (Some 7)]
      (Some (Error "HTTPStatusError" "503"));
  obstore_batches :=
    Stream [[obstore_dict "a.txt" (Some 3)]; [obstore_object "b.txt" (Some 7)]]
      None;
  fetch := fun _ key =>
    if decide (key = VStr "b.txt") then Some access_denied else None;
  mkdir := fun _ => None;
  str_of := fun _ => "<object>"
|}.

(** The same world with credentials STS rejects. *)
Definition rejected_world : world := {|
  parse_args := parse_args sample_world;
  sts_get_caller_identity := Raise invalid_token;
  aioaws_probe := aioaws_probe sample_world;
  obstore_probe := obstore_probe sample_world;
  aioboto3_pages := aioboto3_pages sample_world;
  aioaws_objects := aioaws_objects sample_world;
  obstore_batches := obstore_batches sample_world;
  fetch := fetch sample_world;
  mkdir := mkdir sample_world;
  str_of := str_of sample_world
|}.

(** The sample world with both listing probes refused. *)
Definition refused_probes_world : world := {|
  parse_args := parse_args sample_world;
  sts_get_caller_identity := sts_get_caller_identity sample_world;
  aioaws_probe := Stream [] (Some (Error "RequestError" "403 Forbidden"));
  obstore_probe := Stream [] (Some (Error "GenericError" "NoSuchBucket: bkt"));
  aioboto3_pages := aioboto3_pages sample_world;
  aioaws_objects := aioaws_objects sample_world;
  obstore_batches := obstore_batches sample_world;
  fetch := fetch sample_world;
  mkdir := mkdir sample_world;
  str_of := str_of sample_world
|}.

(** *** Vocabulary for the properties of the probes, listings and runs *)

(** Every event a computation leaves satisfies [P]. *)
Definition log_all {S A : Type} (P : event → Prop) (m : M S A) : Prop :=
  ∀ s log s' r, m s = (log, s', r) → Forall P log.

Definition is_get_object (ev : event) : bool :=
  match ev with
  | Backend (GetObject _ _) => true
  | _ => false
  end.

(** The requests of a log, in order, and its lines on stdout. *)
Definition requests (log : list event) : list call :=
  omap (fun ev => match ev with Backend c => Some c | _ => None end) log.

Definition stdout (log : list event) : list (string * list parg) :=
  omap (fun ev => match ev with
                  | Stdout text args => Some (text, args)
                  | _ => None
                  end) log.

(** The [key] attributes of the objects of an aioaws listing, up to the
    first object that has none. *)
Fixpoint leading_keys (objs : list entry) : list pyval :=
  match objs with
  | [] => []
  | obj :: rest =>
      match Py.getattr obj "key" with
      | Ok key => key :: leading_keys rest
      | Raise _ => []
      end
  end.

(** The key the obstore listing records for an entry. *)
Definition obstore_key (w : world) (e : entry) : pyval :=
  VStr (py_str w (obstore_name w e)).

(** The body of [async for batch in store.list_async(...)] of the obstore
    probe, over its [batch_count]. *)
Definition obstore_probe_batch (w : world) (batch : list entry) : M Z flow :=
  modify (fun batch_count => batch_count + 1);;
  match batch with
  | [] => mret Next
  | first :: _ =>
      print "  First path from list_async():" [PObj (obstore_name w first)];;
      print "  -> obstore S3 request signed & accepted" [];;
      mret Break
  end.

(** The line the [except] of the obstore probe prints for [e]. *)
Definition obstore_probe_failure (cfg : config) (e : exn) : event :=
  if Py.contains "NoSuchBucket" (Py.str_exn e)
  then Stdout "  -> credentials are OK, but bucket does not exist or is wrong:"
         [pstr (S3_TEST_BUCKET cfg)]
  else Stdout "  obstore S3 call failed:" [pstr (Py.str_exn e)].

(** The [try] of the obstore probe. *)
Definition obstore_probe_try (w : world) : M Z unit :=
  modify (fun _ => 0);;
  async_for (ListProbe Obstore) (obstore_probe w) (obstore_probe_batch w);;
  batch_count ← get;
  if batch_count =? 0
  then print "  list_async() returned no batches, but request was accepted." []
  else mret tt.

(** The body of [async for obj in s3.list()] of the aioaws listing. *)
Definition aioaws_list_object (max_items : Z) (obj : entry) : M listing flow :=
  shown ← lift (Py.getattr obj "key");
  print "  -" [PObj (EVal shown)];;
  key ← lift (Py.getattr obj "key");
  modify (append_key key);;
  break_at max_items.

(** The bodies of the two loops of the obstore listing. *)
Definition obstore_list_entry (w : world) (max_items : Z) (e : entry)
    : M listing flow :=
  let key := VStr (py_str w (obstore_name w e)) in
  print "  -" [PObj (EVal key)];;
  modify (append_key key);;
  break_at max_items.

Definition obstore_list_batch (w : world) (max_items : Z) (batch : list entry)
    : M listing flow :=
  for_in batch (obstore_list_entry w max_items);;
  break_at max_items.

(** Two outcomes agree: both values, related by [V], or the same
    exception. *)
Definition same_outcome {A B : Type} (V : A → B → Prop)
    (r1 : result A) (r2 : result B) : Prop :=
  match r1, r2 with
  | Ok a, Ok b => V a b
  | Raise e1, Raise e2 => e1 = e2
  | _, _ => False
  end.

(** Two computations over different local variables go the same way: from
    variables related by [R] they make the same requests, leave variables
    related by [R] and end with the same outcome. *)
Definition sim {S1 S2 A B : Type} (R : S1 → S2 → Prop) (V : A → B → Prop)
    (m1 : M S1 A) (m2 : M S2 B) : Prop :=
  ∀ s1 s2, R s1 s2 →
    requests (m1 s1).1.1 = requests (m2 s2).1.1
    ∧ R (m1 s1).1.2 (m2 s2).1.2
    ∧ same_outcome V (m1 s1).2 (m2 s2).2.

Definition any {A B : Type} : A → B → Prop := fun _ _ => True.

(** A computation that requests nothing, leaves the variables as they
    were and ends normally. *)
Definition quiet {S A : Type} (m : M S A) : Prop :=
  ∀ s, ∃ l a, m s = (l, s, Ok a) ∧ requests l = [].

(** The count of the listings of [auth.py] against the keys and count of
    the listings of [download_bucket_files.py]. *)
Definition same_count (count : Z) (st : listing) : Prop := count = st.2.

(** The body of the download loops past the [continue]: the local path,
    its parent directory, then the [try]. *)
Definition store_key (w : world) {S : Type} (b : backend) (base : string)
    (key : pyval) : M S flow :=
  local_path ← lift (Path.truediv base key);
  do_mkdir w (Path.parent local_path);;
  fetch_and_write w b key local_path;;
  mret Next.


(** What a listing prints on stdout: a line for a key, and its last line,
    the summary with the count or the failure with the exception. *)
Definition key_line (key : pyval) : string * list parg :=
  ("  -", [PObj (EVal key)]).

Definition closing_line (b : backend) (max_items : Z) (listed : nat)
    (ending : option exn) : string * list parg :=
  match ending with
  | Some e => ("  " ++ backend_name b ++ " bucket listing failed:", [PExn e])
  | None =>
      ("  -> " ++ backend_name b ++ " listed {} objects (limit {}).",
       [pint (Z.of_nat listed); pint max_items])
  end.

(** The exception a pass over a whole aioaws listing ends on, if any: that
    of the first object without [key], else the listing's own. *)
Fixpoint aioaws_end (objs : list entry) (fail : option exn) : option exn :=
  match objs with
  | [] => fail
  | obj :: rest =>
      match Py.getattr obj "key" with
      | Ok _ => aioaws_end rest fail
      | Raise e => Some e
      end
  end.

(** The names [_require_creds] reports. *)
Definition missing_names (cfg : config) : list string :=
  ((if env_truthy (AWS_ACCESS_KEY_ID cfg) then [] else ["AWS_ACCESS_KEY_ID"])
   ++ (if env_truthy (AWS_SECRET_ACCESS_KEY cfg) then []
       else ["AWS_SECRET_ACCESS_KEY"]))%list.

Definition empty_secret_cfg : config :=
  Config (Some "AKIAEXAMPLE") (Some EmptyString) "eu-west-1" "bkt" 100.

(** The sample world with an obstore probe that delivers two empty
    batches and ends. *)
Definition empty_batches_world : world := {|
  parse_args := parse_args sample_world;
  sts_get_caller_identity := sts_get_caller_identity sample_world;
  aioaws_probe := aioaws_probe sample_world;
  obstore_probe := Stream [[]; []] None;
  aioboto3_pages := aioboto3_pages sample_world;
  aioaws_objects := aioaws_objects sample_world;
  obstore_batches := obstore_batches sample_world;
  fetch := fetch sample_world;
  mkdir := mkdir sample_world;
  str_of := str_of sample_world
|}.


(** The sample world in which the object [a] has been written where the
    key [a/b] needs a directory. *)
Definition file_in_the_way : exn :=
  Error "FileExistsError" "[Errno 17] File exists: '/tmp/out/aioboto3/a'".

Definition file_in_the_way_world : world := {|
  parse_args := parse_args sample_world;
  sts_get_caller_identity := sts_get_caller_identity sample_world;
  aioaws_probe := aioaws_probe sample_world;
  obstore_probe := obstore_probe sample_world;
  aioboto3_pages := aioboto3_pages sample_world;
  aioaws_objects := aioaws_objects sample_world;
  obstore_batches := obstore_batches sample_world;
  fetch := fun _ _ => None;
  mkdir := fun p =>
    if String.eqb p "/tmp/out/aioboto3/a" then Some file_in_the_way else None;
  str_of := str_of sample_world
|}.

(** ** Small checks *)

Example aioboto3_dict_sample :
  _is_downloadable_entry (aioboto3_dict "a.txt" (Some 3)) = Ok true.
Proof. vm_compute. reflexivity. Qed.
Example aioaws_object_none_sample :
  _is_downloadable_entry (aioaws_object "a.txt" None)
  = Raise (TypeError "'>' not supported between instances of 'NoneType' and 'int'").
Proof. vm_compute. reflexivity. Qed.
Example bare_key_sample :
  _is_downloadable_entry (EVal (VStr "a.txt")) = Ok false.
Proof. vm_compute. reflexivity. Qed.
Example empty_path_sample :
  _is_downloadable_entry (obstore_dict EmptyString (Some 5)) = Ok true.
Proof. vm_compute. reflexivity. Qed.

(** ** The classifier on the four shapes *)

Ltac shape_lookup :=
  repeat first
    [ rewrite lookup_insert_eq
    | rewrite lookup_insert_ne by done
    | rewrite lookup_empty ];
  simpl.

Ltac shape_unfold :=
  unfold _is_downloadable_entry, is_downloadable, size_is_none_or_positive,
    aioboto3_dict, aioaws_object, obstore_dict, obstore_object,
    aioboto3_dict_nosize, obstore_dict_nosize, size_val,
    Py.dict_has, Py.hasattr, Py.subscript, Py.getattr, Py.get, Py.dict_get;
  simpl; shape_lookup.

Lemma aioboto3_dict_downloadable (key : string) (size : option Z) :
  _is_downloadable_entry (aioboto3_dict key size)
  = Ok (is_downloadable key size).
Proof.
  shape_unfold. destruct (Py.endswith key "/"), size; reflexivity.
Qed.

Lemma obstore_dict_downloadable (key : string) (size : option Z) :
  _is_downloadable_entry (obstore_dict key size)
  = Ok (is_downloadable key size).
Proof.
  shape_unfold. destruct (Py.endswith key "/"), size; reflexivity.
Qed.

Lemma aioboto3_dict_nosize_downloadable (key : string) :
  _is_downloadable_entry (aioboto3_dict_nosize key)
  = Ok (is_downloadable key None).
Proof.
  shape_unfold. destruct (Py.endswith key "/"); reflexivity.
Qed.

Lemma obstore_dict_nosize_downloadable (key : string) :
  _is_downloadable_entry (obstore_dict_nosize key)
  = Ok (is_downloadable key None).
Proof.
  shape_unfold. destruct (Py.endswith key "/"); reflexivity.
Qed.

Lemma aioaws_object_downloadable (key : string) (z : Z) :
  _is_downloadable_entry (aioaws_object key (Some z))
  = Ok (is_downloadable key (Some z)).
Proof.
  shape_unfold. destruct (Py.endswith key "/"); reflexivity.
Qed.

Lemma obstore_object_downloadable (key : string) (z : Z) :
  _is_downloadable_entry (obstore_object key (Some z))
  = Ok (is_downloadable key (Some z)).
Proof.
  shape_unfold. destruct (Py.endswith key "/"); reflexivity.
Qed.

Lemma aioaws_object_none (key : string) :
  _is_downloadable_entry (aioaws_object key None)
  = if Py.endswith key "/" then Ok false else Raise none_gt_int.
Proof.
  shape_unfold. destruct (Py.endswith key "/"); reflexivity.
Qed.

Lemma obstore_object_none (key : string) :
  _is_downloadable_entry (obstore_object key None)
  = if Py.endswith key "/" then Ok false else Raise none_gt_int.
Proof.
  shape_unfold. destruct (Py.endswith key "/"); reflexivity.
Qed.

(** With a size that is an [int], the four shapes of one key and size are
    classified alike. *)
Lemma shape_invariance_int (key : string) (z : Z) :
  let r := Ok (is_downloadable key (Some z)) in
  _is_downloadable_entry (aioboto3_dict key (Some z)) = r
  ∧ _is_downloadable_entry (aioaws_object key (Some z)) = r
  ∧ _is_downloadable_entry (obstore_dict key (Some z)) = r
  ∧ _is_downloadable_entry (obstore_object key (Some z)) = r.
Proof.
  cbv zeta.
  rewrite aioboto3_dict_downloadable, aioaws_object_downloadable,
    obstore_dict_downloadable, obstore_object_downloadable.
  done.
Qed.

(** A key ending in [/] is rejected in every shape, whatever the size,
    [None] included: the size is not looked at. *)
Lemma prefix_key_rejected (key : string) (size : option Z) :
  Py.endswith key "/" = true →
  _is_downloadable_entry (aioboto3_dict key size) = Ok false
  ∧ _is_downloadable_entry (aioaws_object key size) = Ok false
  ∧ _is_downloadable_entry (obstore_dict key size) = Ok false
  ∧ _is_downloadable_entry (obstore_object key size) = Ok false.
Proof.
  intros Hk.
  rewrite aioboto3_dict_downloadable, obstore_dict_downloadable.
  destruct size as [z|].
  - rewrite aioaws_object_downloadable, obstore_object_downloadable.
    unfold is_downloadable. rewrite Hk. done.
  - rewrite aioaws_object_none, obstore_object_none.
    unfold is_downloadable. rewrite Hk. done.
Qed.

(** A size of exactly 0 is rejected in every shape. *)
Lemma zero_size_rejected (key : string) :
  _is_downloadable_entry (aioboto3_dict key (Some 0)) = Ok false
  ∧ _is_downloadable_entry (aioaws_object key (Some 0)) = Ok false
  ∧ _is_downloadable_entry (obstore_dict key (Some 0)) = Ok false
  ∧ _is_downloadable_entry (obstore_object key (Some 0)) = Ok false.
Proof.
  rewrite aioboto3_dict_downloadable, aioaws_object_downloadable,
    obstore_dict_downloadable, obstore_object_downloadable.
  unfold is_downloadable. simpl. rewrite andb_false_r. done.
Qed.

(** In the mapping shapes a size that is [None] or left out is accepted
    for a key that is no prefix marker. *)
Lemma unknown_size_accepted_in_mappings (key : string) :
  Py.endswith key "/" = false →
  _is_downloadable_entry (aioboto3_dict key None) = Ok true
  ∧ _is_downloadable_entry (aioboto3_dict_nosize key) = Ok true
  ∧ _is_downloadable_entry (obstore_dict key None) = Ok true
  ∧ _is_downloadable_entry (obstore_dict_nosize key) = Ok true.
Proof.
  intros Hk.
  rewrite aioboto3_dict_downloadable, aioboto3_dict_nosize_downloadable,
    obstore_dict_downloadable, obstore_dict_nosize_downloadable.
  unfold is_downloadable. rewrite Hk. done.
Qed.

(** C2 (the code departs from the claim): for the key [a.txt] with a size
    of [None], the mapping shapes answer [True] while the two attribute
    shapes raise [TypeError] at [entry.size > 0]: the four shapes do not
    yield the same boolean. *)
Theorem shapes_disagree_on_none_size :
  _is_downloadable_entry (aioboto3_dict "a.txt" None) = Ok true
  ∧ _is_downloadable_entry (obstore_dict "a.txt" None) = Ok true
  ∧ _is_downloadable_entry (aioaws_object "a.txt" None) = Raise none_gt_int
  ∧ _is_downloadable_entry (obstore_object "a.txt" None) = Raise none_gt_int.
Proof. vm_compute. done. Qed.

(** C3 (the code departs from the claim): the predicate is not total on
    the recognised shapes.  An object with attributes [key] and [size], or
    [path] and [size], whose size is [None] makes it raise [TypeError]
    instead of returning a boolean; the rules for mappings test
    [size is None] first and return. *)
Theorem object_shapes_raise_on_none_size :
  (∀ b : bool,
     _is_downloadable_entry
       (EObj (<["key" := VStr "data/report.csv"]> (<["size" := VNone]> ∅)))
     ≠ Ok b)
  ∧ (∀ b : bool,
     _is_downloadable_entry
       (EObj (<["path" := VStr "data/report.csv"]> (<["size" := VNone]> ∅)))
     ≠ Ok b)
  ∧ _is_downloadable_entry
      (EDict (<["Key" := VStr "data/report.csv"]> (<["Size" := VNone]> ∅)))
    = Ok true
  ∧ _is_downloadable_entry
      (EDict (<["path" := VStr "data/report.csv"]> (<["size" := VNone]> ∅)))
    = Ok true.
Proof.
  split_and!; try (vm_compute; done); intros b; vm_compute; discriminate.
Qed.

(** C4 (the code departs from the claim): for a key that does not end in
    [/], an attribute-object entry whose size is [None] is not classified
    as downloadable: the call raises [TypeError]. *)
Theorem none_size_object_not_true (key : string) :
  Py.endswith key "/" = false →
  _is_downloadable_entry (aioaws_object key None) = Raise none_gt_int
  ∧ _is_downloadable_entry (obstore_object key None) = Raise none_gt_int.
Proof.
  intros Hk. rewrite aioaws_object_none, obstore_object_none, Hk. done.
Qed.

Lemma none_size_object_not_true_witness :
  Py.endswith "a.txt" "/" = false
  ∧ _is_downloadable_entry (aioaws_object "a.txt" None) = Raise none_gt_int
  ∧ _is_downloadable_entry (obstore_object "a.txt" None) = Raise none_gt_int.
Proof.
  split; [reflexivity | apply (none_size_object_not_true "a.txt"); reflexivity].
Defined.

(** ** Bare keys in the download loops *)

Lemma plain_value_not_downloadable (v : pyval) :
  _is_downloadable_entry (EVal v) = Ok false.
Proof. reflexivity. Qed.

Lemma download_key_skips (w : world) {S : Type} (b : backend)
    (base : string) (key : pyval) (s : S) :
  download_key w b base key s = ([], s, Ok Next).
Proof. reflexivity. Qed.

Lemma download_loop_skips (w : world) {S : Type} (b : backend)
    (base : string) (keys : list pyval) (s : S) :
  for_in keys (download_key w b base) s = ([], s, Ok tt).
Proof.
  induction keys as [|key keys IH]; [reflexivity|].
  simpl. unfold mbind, M_bind. rewrite download_key_skips, IH. reflexivity.
Qed.

(** No download function requests anything, whatever the keys. *)
Lemma download_files_requests_nothing (w : world) (b : backend)
    (keys : list pyval) (outdir : string) (s : unit) :
  Forall (fun ev => is_backend_call ev = false)
    (download_files w b keys outdir s).1.1.
Proof.
  unfold download_files, locals, do_mkdir, mbind, M_bind. simpl.
  destruct (mkdir w _); simpl; [by repeat constructor|].
  destruct keys as [|key keys]; simpl; [by repeat constructor|].
  pose proof (download_loop_skips w b
                (Path.joinpath outdir (backend_name b)) (key :: keys) tt)
    as Hloop.
  simpl in Hloop. rewrite Hloop. simpl. by repeat constructor.
Qed.

(** A download function ends normally once its directory exists. *)
Lemma download_files_total (w : world) (b : backend) (keys : list pyval)
    (outdir : string) (s : unit) :
  mkdir w (Path.joinpath outdir (backend_name b)) = None →
  ∃ log, download_files w b keys outdir s = (log, s, Ok tt).
Proof.
  intros Hm. unfold download_files, locals, do_mkdir, mbind, M_bind. simpl.
  rewrite Hm. simpl.
  destruct keys as [|key keys]; simpl; [by eexists|].
  pose proof (download_loop_skips w b
                (Path.joinpath outdir (backend_name b)) (key :: keys) tt)
    as Hloop.
  simpl in Hloop. rewrite Hloop. by eexists.
Qed.

(** C1 (the code departs from the claim): the download loops hand the bare
    [str] key to [_is_downloadable_entry], which recognises dictionaries
    and attribute objects only and answers [False] for every string.  So a
    key is excluded whether or not it ends in [/], and no key reaches the
    fetch: for the listed keys [a.txt] and [d/], the run of
    [download_aioboto3_files] creates the directory, prints its banner and
    requests nothing. *)
Theorem str_key_always_excluded :
  (∀ key : string, _is_downloadable_entry (EVal (VStr key)) = Ok false)
  ∧ (∀ w b base (key : string) (s : unit),
       download_key w b base (VStr key) s = ([], s, Ok Next))
  ∧ Py.endswith "a.txt" "/" = false
  ∧ download_aioboto3_files sample_world
      [VStr "a.txt"; VStr "d/"] "/tmp/out" tt
    = ([Mkdir "/tmp/out/aioboto3";
        Stdout "\n=== aioboto3: downloading {} objects into {} ==="
          [pint 2; pstr "/tmp/out/aioboto3"]],
       tt, Ok tt).
Proof.
  split_and!; [reflexivity | reflexivity | reflexivity | vm_compute; reflexivity].
Qed.

(** ** The obstore mapping with an unusable path *)

(** C9, as the claim words it, fails: the mapping whose ["path"] is the
    empty string and whose ["size"] is 5 has a falsy path and is classified
    as downloadable. *)
Lemma empty_path_is_downloadable :
  Py.truthy (VStr EmptyString) = false
  ∧ _is_downloadable_entry
      (EDict (<["path" := VStr EmptyString]> (<["size" := VInt 5]> ∅)))
    = Ok true.
Proof. vm_compute. done. Qed.

(** C9, amended: a mapping without a ["Key"] field whose ["path"] is [None]
    is not downloadable, whatever its size field holds; when the path is
    the empty string the rule goes on to the size, and the entry is
    downloadable exactly when [size is None or size > 0] says so. *)
Theorem none_path_not_downloadable (d : gmap string pyval) :
  d !! "Key" = None →
  (d !! "path" = Some VNone → _is_downloadable_entry (EDict d) = Ok false)
  ∧ (d !! "path" = Some (VStr EmptyString) →
     _is_downloadable_entry (EDict d)
     = size_is_none_or_positive (Py.dict_get d "size")).
Proof.
  intros HK. unfold _is_downloadable_entry, Py.dict_has, Py.get, Py.dict_get.
  rewrite HK. split; intros Hp; rewrite Hp; simpl.
  - reflexivity.
  - destruct (size_is_none_or_positive _) as [[|]|]; reflexivity.
Qed.

Lemma none_path_not_downloadable_witness :
  _is_downloadable_entry
    (EDict (<["path" := VNone]> (<["size" := VInt 5]> ∅))) = Ok false.
Proof.
  apply (none_path_not_downloadable (<["path" := VNone]> (<["size" := VInt 5]> ∅)));
    reflexivity.
Defined.

(** ** The credential gate *)

Lemma require_creds_missing (cfg : config) {S : Type} (s : S) :
  env_truthy (AWS_ACCESS_KEY_ID cfg) = false
  ∨ env_truthy (AWS_SECRET_ACCESS_KEY cfg) = false →
  ∃ names : string,
    _require_creds cfg s
    = ([Stderr "Missing required env vars:" [pstr names]], s,
       Raise (SystemExit 1)).
Proof.
  intros H. unfold _require_creds. simpl.
  destruct (env_truthy (AWS_ACCESS_KEY_ID cfg)),
    (env_truthy (AWS_SECRET_ACCESS_KEY cfg)); simpl;
    try (eexists; reflexivity).
  destruct H; discriminate.
Qed.

Lemma require_creds_present (cfg : config) {S : Type} (s : S) :
  env_truthy (AWS_ACCESS_KEY_ID cfg) = true →
  env_truthy (AWS_SECRET_ACCESS_KEY cfg) = true →
  _require_creds cfg s = ([], s, Ok tt).
Proof.
  intros Ha Hs. unfold _require_creds. simpl. rewrite Ha, Hs. reflexivity.
Qed.

(** C8: when the access key or the secret key is absent (unset, or set to
    the empty string), the whole run consists of one line on stderr and the
    exit status 1: no identity check, listing or download request is made. *)
Theorem missing_creds_abort (cfg : config) (w : world) :
  env_truthy (AWS_ACCESS_KEY_ID cfg) = false
  ∨ env_truthy (AWS_SECRET_ACCESS_KEY cfg) = false →
  ∃ names : string,
    run cfg w = ([Stderr "Missing required env vars:" [pstr names]], 1)
    ∧ 1 ≠ 0
    ∧ Forall (fun ev => is_backend_call ev = false) (run cfg w).1.
Proof.
  intros H. destruct (require_creds_missing cfg tt H) as [names Hr].
  exists names.
  assert (Hrun : run cfg w
                 = ([Stderr "Missing required env vars:" [pstr names]], 1)).
  { unfold run, main, mbind, M_bind. rewrite Hr. reflexivity. }
  rewrite Hrun. split_and!; [reflexivity | lia |].
  repeat constructor.
Qed.

Lemma missing_creds_abort_witness :
  ∃ names : string,
    run no_secret_cfg sample_world
    = ([Stderr "Missing required env vars:" [pstr names]], 1)
    ∧ 1 ≠ 0
    ∧ Forall (fun ev => is_backend_call ev = false)
        (run no_secret_cfg sample_world).1.
Proof.
  apply (missing_creds_abort no_secret_cfg sample_world).
  right. reflexivity.
Defined.

(** ** An empty bucket name *)

Lemma bucket_unset (cfg : config) :
  S3_TEST_BUCKET cfg = EmptyString → bucket_set cfg = false.
Proof. intros H. unfold bucket_set. rewrite H. reflexivity. Qed.

(** C10: when the bucket name is the empty string, each of the three
    listings prints its banner and the skip notice and returns the empty
    list, and each of the two listing probes prints its banner and its skip
    notice and returns; none of them makes a request. *)
Theorem empty_bucket_skips (cfg : config) (w : world) (max_items : Z) :
  S3_TEST_BUCKET cfg = EmptyString →
  list_aioboto3_contents cfg w max_items tt
  = ([Stdout "\n=== aioboto3: listing up to {} objects (Downloading only files) from bucket {!r} ==="
        [pint max_items; PReprObj (EVal (VStr EmptyString))];
      Stdout "  S3_TEST_BUCKET not set; skipping." []], tt, Ok [])
  ∧ list_aioaws_contents cfg w max_items tt
    = ([Stdout "\n=== aioaws: listing up to {} objects (Downloading only files) from bucket {!r} ==="
          [pint max_items; PReprObj (EVal (VStr EmptyString))];
        Stdout "  S3_TEST_BUCKET not set; skipping." []], tt, Ok [])
  ∧ list_obstore_contents cfg w max_items tt
    = ([Stdout "\n=== obstore: listing up to {} objects (Downloading only files) from bucket {!r} ==="
          [pint max_items; PReprObj (EVal (VStr EmptyString))];
        Stdout "  S3_TEST_BUCKET not set; skipping." []], tt, Ok [])
  ∧ check_aioaws_s3 cfg w tt
    = ([Stdout "\n=== aioaws: S3 list sanity check on bucket {!r} ==="
          [PReprObj (EVal (VStr EmptyString))];
        Stdout "  S3_TEST_BUCKET not set; skipping aioaws S3 check." []],
       tt, Ok tt)
  ∧ check_obstore_s3 cfg w tt
    = ([Stdout "\n=== obstore: S3Store list_async sanity check on bucket {!r} ==="
          [PReprObj (EVal (VStr EmptyString))];
        Stdout "  S3_TEST_BUCKET not set; skipping obstore S3 check." []],
       tt, Ok tt).
Proof.
  intros Hb. pose proof (bucket_unset cfg Hb) as Hset.
  unfold list_aioboto3_contents, list_aioaws_contents, list_obstore_contents,
    check_aioaws_s3, check_obstore_s3, locals, mbind, M_bind, bucket.
  rewrite Hset, Hb. simpl. done.
Qed.

Lemma empty_bucket_skips_witness :
  (list_aioboto3_contents no_bucket_cfg sample_world 100 tt).2 = Ok []
  ∧ (list_aioaws_contents no_bucket_cfg sample_world 100 tt).2 = Ok []
  ∧ (list_obstore_contents no_bucket_cfg sample_world 100 tt).2 = Ok []
  ∧ (check_aioaws_s3 no_bucket_cfg sample_world tt).2 = Ok tt
  ∧ (check_obstore_s3 no_bucket_cfg sample_world tt).2 = Ok tt.
Proof.
  pose proof (empty_bucket_skips no_bucket_cfg sample_world 100 eq_refl)
    as (H1 & H2 & H3 & H4 & H5).
  rewrite H1, H2, H3, H4, H5. done.
Defined.

(** ** A rejected identity check *)

(** C7 (the code departs from the claim): [check_aioboto3_sts] has no
    [try] around the STS call.  With credentials present and the arguments
    parsed, an exception of the identity check leaves [main]: the run ends
    after the banner and the one request, before any probe, listing or
    download of any backend, and the process exits with status 1. *)
Theorem sts_failure_is_fatal (cfg : config) (w : world) (a : args) (e : exn) :
  env_truthy (AWS_ACCESS_KEY_ID cfg) = true →
  env_truthy (AWS_SECRET_ACCESS_KEY cfg) = true →
  parse_args w = Ok a →
  mkdir w (outdir a) = None →
  sts_get_caller_identity w = Raise e →
  Py.is_Exception e = true →
  main cfg w tt
  = ([Mkdir (outdir a);
      Stdout "\n=== aioboto3: STS GetCallerIdentity ===" [];
      Backend StsGetCallerIdentity], tt, Raise e)
  ∧ (run cfg w).2 = 1.
Proof.
  intros Ha Hs Hp Hm He Hexc.
  assert (Hmain : main cfg w tt
    = ([Mkdir (outdir a);
        Stdout "\n=== aioboto3: STS GetCallerIdentity ===" [];
        Backend StsGetCallerIdentity], tt, Raise e)).
  { unfold main, mbind, M_bind.
    rewrite (require_creds_present cfg tt Ha Hs).
    unfold lift at 1. rewrite Hp.
    unfold do_mkdir, check_aioboto3_sts, locals, mbind, M_bind, lift.
    simpl. rewrite Hm, He. reflexivity. }
  split; [exact Hmain|].
  unfold run. rewrite Hmain. simpl. destruct e; try reflexivity; discriminate.
Qed.

Lemma sts_failure_is_fatal_witness :
  main sample_cfg rejected_world tt
  = ([Mkdir "/tmp/out";
      Stdout "\n=== aioboto3: STS GetCallerIdentity ===" [];
      Backend StsGetCallerIdentity], tt, Raise invalid_token)
  ∧ (run sample_cfg rejected_world).2 = 1.
Proof.
  apply (sts_failure_is_fatal sample_cfg rejected_world
           (Args None "/tmp/out") invalid_token); reflexivity.
Defined.

(** ** Failures inside the download loop *)

(** The [try] of the loop body does catch: a fetch or write that raises an
    [Exception] is turned into one [FAILED] line and a normal end. *)
Lemma fetch_and_write_catches (w : world) {S : Type} (b : backend)
    (key : pyval) (local_path : string) (e : exn) (s : S) :
  fetch w b key = Some e →
  Py.is_Exception e = true →
  fetch_and_write w b key local_path s
  = ([Backend (GetObject b key);
      Stdout ("  FAILED to download {!r} via " ++ backend_name b ++ ":")
        [PReprObj (EVal key); PExn e]], s, Ok tt).
Proof.
  intros Hf He. unfold fetch_and_write, try_except, mbind, M_bind. simpl.
  rewrite Hf. simpl. rewrite He. reflexivity.
Qed.

(** The loop body is the classifier's verdict on the bare key, then
    [store_key]. *)
Lemma download_key_unfold (w : world) {S : Type} (b : backend)
    (base : string) (key : pyval) :
  (download_key w b base key : M S flow)
  = (ok ← lift (_is_downloadable_entry (EVal key));
     if negb ok then mret Next else store_key w b base key).
Proof. reflexivity. Qed.

(** Past the [continue], the parent directory is created outside the
    [try]: an exception of that [mkdir] leaves the loop body, and with it
    the loop, before the key is fetched. *)
Lemma store_key_mkdir_fatal (w : world) {S : Type} (b : backend)
    (base : string) (key : pyval) (local_path : string) (e : exn) (s : S) :
  Path.truediv base key = Ok local_path →
  mkdir w (Path.parent local_path) = Some e →
  store_key w b base key s = ([Mkdir (Path.parent local_path)], s, Raise e).
Proof.
  intros Hp Hm. unfold store_key, do_mkdir, mbind, M_bind, lift, emit.
  rewrite Hp, Hm. reflexivity.
Qed.

(** Past the [continue], with the parent directory created, a failing
    fetch is recorded and the loop goes on. *)
Lemma store_key_records_failure (w : world) {S : Type} (b : backend)
    (base : string) (key : pyval) (local_path : string) (e : exn) (s : S) :
  Path.truediv base key = Ok local_path →
  mkdir w (Path.parent local_path) = None →
  fetch w b key = Some e →
  Py.is_Exception e = true →
  store_key w b base key s
  = ([Mkdir (Path.parent local_path);
      Backend (GetObject b key);
      Stdout ("  FAILED to download {!r} via " ++ backend_name b ++ ":")
        [PReprObj (EVal key); PExn e]], s, Ok Next).
Proof.
  intros Hp Hm Hf He. unfold store_key, do_mkdir.
  unfold mbind at 1, M_bind at 1. unfold lift at 1. rewrite Hp.
  unfold mbind at 1, M_bind at 1. unfold mbind at 1, M_bind at 1.
  unfold emit at 1. rewrite Hm.
  unfold mret at 1, M_ret at 1.
  unfold mbind at 1, M_bind at 1.
  rewrite (fetch_and_write_catches w b key local_path e s Hf He).
  reflexivity.
Qed.

(** The loop over [store_key], that is the download loop without its
    [continue], on the keys [a], [a/b] and [c]: the first is downloaded, the
    [mkdir] for the second raises outside the [try], and the third is never
    reached. *)
Example store_loop_aborts_on_mkdir :
  for_in [VStr "a"; VStr "a/b"; VStr "c"]
    (store_key file_in_the_way_world Aioboto3 "/tmp/out/aioboto3") tt
  = ([Mkdir "/tmp/out/aioboto3";
      Backend (GetObject Aioboto3 (VStr "a"));
      Stdout "  downloaded: {} -> {}"
        [PObj (EVal (VStr "a")); pstr "/tmp/out/aioboto3/a"];
      Mkdir "/tmp/out/aioboto3/a"],
     tt, Raise file_in_the_way).
Proof. vm_compute. reflexivity. Qed.


(** ** The cap of the aioboto3 listing *)

Lemma bind_ok {S A B : Type} (m : M S A) (f : A → M S B) (s s' : S)
    (log : list event) (a : A) :
  m s = (log, s', Ok a) →
  (m ≫= f) s = (let '(log', s'', r) := f a s' in ((log ++ log')%list, s'', r)).
Proof. intros H. unfold mbind, M_bind. rewrite H. reflexivity. Qed.

Lemma break_at_spec (max_items : Z) (st : listing) :
  break_at max_items st
  = ([], st, Ok (if max_items <=? st.2 then Break else Next)).
Proof.
  unfold break_at, mbind, M_bind, get. simpl.
  destruct (max_items <=? st.2); reflexivity.
Qed.

(** One page, entered with room left: the keys are appended in order up to
    the room, and the counter follows. *)
Lemma aioboto3_objects_take (max_items : Z) (contents : list entry) :
  Forall (fun obj => is_Some (object_key obj)) contents →
  ∀ (keys : list pyval) (count : Z),
    count < max_items →
    let taken := take (Z.to_nat (max_items - count)) (omap object_key contents) in
    ∃ log,
      for_in contents (aioboto3_object max_items) (keys, count)
      = (log, ((keys ++ taken)%list, count + Z.of_nat (length taken)), Ok tt).
Proof.
  induction 1 as [|obj rest Hobj Hrest IH]; intros keys count Hlt; cbv zeta.
  - exists []. simpl. rewrite take_nil. simpl.
    rewrite app_nil_r, Z.add_0_r. reflexivity.
  - destruct Hobj as [key Hkey]. simpl omap. rewrite Hkey. simpl.
    unfold object_key in Hkey.
    destruct (Py.subscript obj "Key") as [key'|] eqn:Hsub; [|discriminate].
    injection Hkey as ->.
    replace (Z.to_nat (max_items - count))
      with (Datatypes.S (Z.to_nat (max_items - (count + 1))))
      by (clear -Hlt; lia).
    simpl take. simpl length.
    unfold mbind at 1, M_bind at 1.
    unfold aioboto3_object at 1. unfold mbind at 1, M_bind at 1.
    unfold lift at 1. rewrite Hsub.
    unfold mbind at 1, M_bind at 1. unfold print at 1, emit at 1.
    unfold mbind at 1, M_bind at 1. unfold modify at 1.
    rewrite break_at_spec. unfold append_key. cbn [fst snd].
    destruct (max_items <=? count + 1) eqn:Hle.
    + apply Z.leb_le in Hle.
      replace (Z.to_nat (max_items - (count + 1))) with 0%nat
        by (clear -Hle; lia).
      rewrite take_0. eexists. simpl. reflexivity.
    + apply Z.leb_gt in Hle.
      destruct (IH (keys ++ [key])%list (count + 1) Hle) as [log Hlog].
      cbv zeta in Hlog. rewrite Hlog.
      eexists. simpl. rewrite <- app_assoc. simpl.
      do 3 f_equal. unfold omap. clear. lia.
Qed.

(** The pages of one listing, entered with room left. *)
Lemma aioboto3_pages_take (max_items : Z) (pages : list page) :
  Forall well_formed_page pages →
  ∀ (keys : list pyval) (count : Z),
    count < max_items →
    let taken := take (Z.to_nat (max_items - count)) (pages_keys pages) in
    ∃ log,
      async_for_items (ListPage Aioboto3) pages None
        (aioboto3_page max_items) (keys, count)
      = (log, ((keys ++ taken)%list, count + Z.of_nat (length taken)), Ok tt).
Proof.
  induction 1 as [|pg rest Hpg Hrest IH]; intros keys count Hlt; cbv zeta.
  - exists [Backend (ListPage Aioboto3)].
    unfold pages_keys. simpl. rewrite take_nil. simpl.
    rewrite app_nil_r, Z.add_0_r. reflexivity.
  - destruct (aioboto3_objects_take max_items (default [] pg) Hpg keys count Hlt)
      as [log1 Hinner].
    cbv zeta in Hinner. fold (page_keys pg) in Hinner.
    set (n := Z.to_nat (max_items - count)) in *.
    change (pages_keys (pg :: rest)) with (page_keys pg ++ pages_keys rest)%list.
    simpl async_for_items.
    unfold mbind at 1, M_bind at 1. unfold emit at 1.
    unfold mbind at 1, M_bind at 1.
    unfold aioboto3_page at 1. unfold mbind at 1, M_bind at 1.
    rewrite Hinner, break_at_spec. cbn [fst snd].
    pose proof (length_take (page_keys pg) n) as Hlen.
    destruct (max_items <=? count + Z.of_nat (length (take n (page_keys pg))))
      eqn:Hle.
    + apply Z.leb_le in Hle.
      assert (Hn : (n ≤ length (page_keys pg))%nat) by (subst n; lia).
      rewrite (take_app_le _ _ _ Hn).
      eexists. simpl. reflexivity.
    + apply Z.leb_gt in Hle.
      assert (Hn : (length (page_keys pg) ≤ n)%nat) by (subst n; lia).
      rewrite (take_ge _ _ Hn) in *.
      destruct (IH (keys ++ page_keys pg)%list
                  (count + Z.of_nat (length (page_keys pg))) Hle) as [log Hlog].
      cbv zeta in Hlog. rewrite Hlog.
      rewrite take_app, (take_ge _ _ Hn).
      replace (Z.to_nat (max_items - (count + Z.of_nat (length (page_keys pg)))))
        with (n - length (page_keys pg))%nat by (subst n; lia).
      eexists. simpl. rewrite length_app, Nat2Z.inj_add, Z.add_assoc.
      rewrite <- (app_assoc keys). reflexivity.
Qed.

(** For a limit of at least 1, a bucket name that is set and a paginator
    that delivers well-formed pages to its end, the aioboto3 listing
    returns the first [max_items] keys of the pages, in order. *)
Lemma list_aioboto3_contents_take (cfg : config) (w : world) (max_items : Z)
    (pages : list page) :
  1 <= max_items →
  S3_TEST_BUCKET cfg ≠ EmptyString →
  aioboto3_pages w = Stream pages None →
  Forall well_formed_page pages →
  ∃ log,
    list_aioboto3_contents cfg w max_items tt
    = (log, tt, Ok (take (Z.to_nat max_items) (pages_keys pages))).
Proof.
  intros Hmax Hb Hpages Hwf.
  assert (Hset : bucket_set cfg = true).
  { unfold bucket_set. destruct (String.eqb_spec (S3_TEST_BUCKET cfg) EmptyString);
      [contradiction | reflexivity]. }
  destruct (aioboto3_pages_take max_items pages Hwf [] 0 ltac:(lia))
    as [log Hlog].
  cbv zeta in Hlog. rewrite Z.sub_0_r in Hlog.
  unfold list_aioboto3_contents, locals.
  unfold mbind at 1, M_bind at 1. unfold print at 1, emit at 1.
  rewrite Hset. cbn [negb].
  unfold mbind at 1, M_bind at 1. unfold async_for. rewrite Hpages.
  cbn [items failure]. rewrite Hlog.
  eexists. simpl. reflexivity.
Qed.

(** One object of a page: its key is printed and appended, then the cap is
    tested. *)
Lemma aioboto3_object_spec (max_items : Z) (obj : entry) (key : pyval)
    (keys : list pyval) (count : Z) :
  Py.subscript obj "Key" = Ok key →
  aioboto3_object max_items obj (keys, count)
  = ([Stdout "  -" [PObj (EVal key)]], ((keys ++ [key])%list, count + 1),
     Ok (if max_items <=? count + 1 then Break else Next)).
Proof.
  intros Hkey. unfold aioboto3_object.
  unfold mbind at 1, M_bind at 1. unfold lift at 1. rewrite Hkey.
  unfold mbind at 1, M_bind at 1. unfold print at 1, emit at 1.
  unfold mbind at 1, M_bind at 1. unfold modify at 1.
  rewrite break_at_spec. reflexivity.
Qed.

(** For a limit of 0 or less the listing still takes the first object it
    is handed: it returns that one key. *)
Lemma nonpositive_limit_lists_first_key (cfg : config) (w : world)
    (max_items : Z) (obj : entry) (key : pyval) (rest : list entry)
    (more : list page) (fail : option exn) :
  max_items <= 0 →
  S3_TEST_BUCKET cfg ≠ EmptyString →
  aioboto3_pages w = Stream (Some (obj :: rest) :: more) fail →
  Py.subscript obj "Key" = Ok key →
  ∃ log, list_aioboto3_contents cfg w max_items tt = (log, tt, Ok [key]).
Proof.
  intros Hmax Hb Hpages Hkey.
  assert (Hset : bucket_set cfg = true).
  { unfold bucket_set.
    destruct (String.eqb_spec (S3_TEST_BUCKET cfg) EmptyString);
      [contradiction | reflexivity]. }
  assert (Hle : (max_items <=? 0 + 1) = true) by (apply Z.leb_le; lia).
  assert (Hpage : aioboto3_page max_items (Some (obj :: rest)) ([], 0)
                  = ([Stdout "  -" [PObj (EVal key)]], ([key], 0 + 1), Ok Break)).
  { unfold aioboto3_page. cbn [default]. simpl for_in.
    unfold mbind at 1, M_bind at 1. unfold mbind at 1, M_bind at 1.
    rewrite (aioboto3_object_spec max_items obj key [] 0 Hkey), Hle.
    simpl. rewrite break_at_spec. cbn [fst snd]. rewrite Hle. reflexivity. }
  unfold list_aioboto3_contents, locals, async_for.
  rewrite Hpages. cbn [items failure].
  unfold mbind at 1, M_bind at 1. unfold print at 1, emit at 1.
  rewrite Hset. cbn [negb]. simpl async_for_items.
  unfold mbind at 1, M_bind at 1. unfold mbind at 1, M_bind at 1.
  unfold emit at 1. unfold mbind at 1, M_bind at 1.
  rewrite Hpage. eexists. simpl. reflexivity.
Qed.

(** C5 (the code departs from the claim): the cap is tested only after a
    key has been appended.  With a limit of 0 and a first page of two
    objects the listing returns one key, where the first
    [min max_items total] keys are none; with a limit of 1 it returns the
    same single key. *)
Theorem zero_limit_lists_one_key :
  (list_aioboto3_contents sample_cfg sample_world 0 tt).2 = Ok [VStr "a.txt"]
  ∧ aioboto3_pages sample_world
    = Stream [Some [aioboto3_dict "a.txt" (Some 3); aioboto3_dict "d/" (Some 0)];
              None;
              Some [aioboto3_dict "b.txt" (Some 7)]] None
  ∧ take (Z.to_nat (Z.min 0 3))
      (pages_keys (items (aioboto3_pages sample_world))) = []
  ∧ (list_aioboto3_contents sample_cfg sample_world 1 tt).2 = Ok [VStr "a.txt"].
Proof. vm_compute. done. Qed.


(** ** The probes that do catch *)

Lemma only_exceptions_of_total {S A : Type} (m : M S A) :
  total m → only_exceptions m.
Proof.
  intros Hm s log s' e Hr. destruct (Hm s) as (l & t & a & Ha).
  rewrite Ha in Hr. discriminate.
Qed.

Lemma total_ret {S A : Type} (a : A) : total (mret a : M S A).
Proof. intros s. by exists [], s, a. Qed.

Lemma total_print {S : Type} (text : string) (args : list parg) :
  total (print text args : M S unit).
Proof. intros s. by exists [Stdout text args], s, tt. Qed.

Lemma total_bind {S A B : Type} (m : M S A) (f : A → M S B) :
  total m → (∀ a, total (f a)) → total (m ≫= f).
Proof.
  intros Hm Hf s. destruct (Hm s) as (l1 & s1 & a & Ha).
  destruct (Hf a s1) as (l2 & s2 & b & Hb).
  exists (l1 ++ l2)%list, s2, b. unfold mbind, M_bind. rewrite Ha, Hb. done.
Qed.

Lemma only_exceptions_bind {S A B : Type} (m : M S A) (f : A → M S B) :
  only_exceptions m → (∀ a, only_exceptions (f a)) → only_exceptions (m ≫= f).
Proof.
  intros Hm Hf s log s' e. unfold mbind, M_bind.
  destruct (m s) as [[l1 s1] [a|e1]] eqn:Em.
  - destruct (f a s1) as [[l2 s2] r] eqn:Ef.
    intros [= _ _ ->]. by eapply Hf.
  - intros [= _ _ ->]. by eapply Hm.
Qed.

Lemma only_exceptions_getattr {S : Type} (e : entry) (name : string) :
  only_exceptions (lift (Py.getattr e name) : M S pyval).
Proof.
  intros s log s' x. unfold lift, Py.getattr.
  destruct e as [v|d|attrs]; [| |destruct (attrs !! name)];
    intros [= _ _ Hx]; try discriminate; by inversion Hx.
Qed.

Lemma only_exceptions_async_for {A S : Type} (c : call) (xs : list A)
    (fail : option exn) (body : A → M S flow) :
  (∀ e, fail = Some e → Py.is_Exception e = true) →
  (∀ x, only_exceptions (body x)) →
  only_exceptions (async_for_items c xs fail body).
Proof.
  intros Hfail Hbody. induction xs as [|x xs IH]; simpl.
  - apply only_exceptions_bind; [by apply only_exceptions_of_total; intros s; eexists _, _, _|].
    intros _. destruct fail as [e|].
    + intros s log s' e' [= _ _ ->]. by apply Hfail.
    + apply only_exceptions_of_total, total_ret.
  - apply only_exceptions_bind; [by apply only_exceptions_of_total; intros s; eexists _, _, _|].
    intros _. apply only_exceptions_bind; [apply Hbody|].
    intros [|]; [exact IH | apply only_exceptions_of_total, total_ret].
Qed.

Lemma try_except_total {S A : Type} (body : M S A) (handler : exn → M S A) :
  only_exceptions body → (∀ e, total (handler e)) →
  total (try_except body handler).
Proof.
  intros Hb Hh s. unfold try_except.
  destruct (body s) as [[l1 s1] [a|e]] eqn:Eb.
  - by exists l1, s1, a.
  - rewrite (Hb _ _ _ _ Eb). destruct (Hh e s1) as (l2 & s2 & a & Ha).
    rewrite Ha. by exists (l1 ++ l2)%list, s2, a.
Qed.

Lemma locals_total {S S' A : Type} (init : S') (body : M S' A) (s : S) :
  total body → ∃ log a, locals init body s = (log, s, Ok a).
Proof.
  intros Hb. destruct (Hb init) as (l & t & a & Ha).
  exists l, a. unfold locals. by rewrite Ha.
Qed.

(** The aioaws probe ends normally whatever the listing does, as long as
    what the client raises is an [Exception]. *)
Lemma check_aioaws_s3_total (cfg : config) (w : world) (s : unit) :
  (∀ e, failure (aioaws_probe w) = Some e → Py.is_Exception e = true) →
  ∃ log, check_aioaws_s3 cfg w s = (log, s, Ok tt).
Proof.
  intros Hfail. unfold check_aioaws_s3.
  match goal with
  | |- ∃ log, locals ?i ?body s = _ =>
      destruct (locals_total (S := unit) i body s) as (log & [] & Hrun)
  end.
  - apply total_bind; [apply total_print|]. intros _.
    destruct (negb (bucket_set cfg)); [apply total_print|].
    apply try_except_total; [|intros e; apply total_print].
    apply only_exceptions_bind;
      [by apply only_exceptions_of_total; intros t; eexists _, _, _|].
    intros _. apply only_exceptions_bind.
    + apply only_exceptions_async_for; [exact Hfail|].
      intros obj. apply only_exceptions_bind; [apply only_exceptions_getattr|].
      intros key. apply only_exceptions_of_total.
      apply total_bind; [apply total_print|]. intros _.
      apply total_bind; [by intros t; eexists _, _, _|]. intros _.
      apply total_bind; [by intros t; eexists _, _, _|]. intros count.
      destruct (1 <=? count); apply total_ret.
    + intros _. apply only_exceptions_of_total.
      apply total_bind; [by intros t; eexists _, _, _|]. intros count.
      apply total_bind; [|intros _; apply total_print].
      destruct (count =? 0); [apply total_print | apply total_ret].
  - exists log. exact Hrun.
Qed.

(** The obstore probe likewise. *)
Lemma check_obstore_s3_total (cfg : config) (w : world) (s : unit) :
  (∀ e, failure (obstore_probe w) = Some e → Py.is_Exception e = true) →
  ∃ log, check_obstore_s3 cfg w s = (log, s, Ok tt).
Proof.
  intros Hfail. unfold check_obstore_s3.
  match goal with
  | |- ∃ log, locals ?i ?body s = _ =>
      destruct (locals_total (S := unit) i body s) as (log & [] & Hrun)
  end.
  - apply total_bind; [apply total_print|]. intros _.
    destruct (negb (bucket_set cfg)); [apply total_print|].
    apply try_except_total.
    + apply only_exceptions_bind;
        [by apply only_exceptions_of_total; intros t; eexists _, _, _|].
      intros _. apply only_exceptions_bind.
      * apply only_exceptions_async_for; [exact Hfail|].
        intros batch. apply only_exceptions_of_total.
        apply total_bind; [by intros t; eexists _, _, _|]. intros _.
        destruct batch as [|first rest]; [apply total_ret|].
        apply total_bind; [apply total_print|]. intros _.
        apply total_bind; [apply total_print|]. intros _. apply total_ret.
      * intros _. apply only_exceptions_of_total.
        apply total_bind; [by intros t; eexists _, _, _|]. intros n.
        destruct (n =? 0); [apply total_print | apply total_ret].
    + intros e. cbv zeta.
      destruct (Py.contains "NoSuchBucket" (Py.str_exn e)); apply total_print.
  - exists log. exact Hrun.
Qed.

(** A run whose two listing probes are refused goes on to the listings and
    exits with status 0. *)
Example refused_probes_run :
  (run sample_cfg refused_probes_world).2 = 0
  ∧ Backend (ListPage Aioboto3) ∈ (run sample_cfg refused_probes_world).1.
Proof.
  split; [vm_compute; reflexivity|].
  apply list_elem_of_In. vm_compute. tauto.
Qed.

(** The cap lemma on the sample world, with a limit of 2. *)
Example list_aioboto3_contents_take_sample :
  ∃ log,
    list_aioboto3_contents sample_cfg sample_world 2 tt
    = (log, tt, Ok [VStr "a.txt"; VStr "d/"]).
Proof.
  apply (list_aioboto3_contents_take sample_cfg sample_world 2
           (items (aioboto3_pages sample_world))).
  - lia.
  - discriminate.
  - reflexivity.
  - repeat constructor; vm_compute; eauto.
Qed.

(** ** More on the classifier *)

(** X1: an entry that matches none of the four rules is answered [False],
    never an error: a plain value, a mapping with neither ["Key"] nor
    ["path"], an object without [size], or one with neither [key] nor
    [path]. *)
Theorem unrecognised_entry_not_downloadable (e : entry) :
  match e with
  | EVal _ => True
  | EDict d => d !! "Key" = None ∧ d !! "path" = None
  | EObj attrs =>
      attrs !! "size" = None ∨ (attrs !! "key" = None ∧ attrs !! "path" = None)
  end →
  _is_downloadable_entry e = Ok false.
Proof.
  destruct e as [v|d|attrs]; [reflexivity| |].
  - intros [HK Hp]. unfold _is_downloadable_entry, Py.dict_has, Py.hasattr.
    rewrite HK, Hp. reflexivity.
  - unfold _is_downloadable_entry, Py.dict_has, Py.hasattr.
    intros [Hs|[Hk Hp]].
    + rewrite Hs. simpl. rewrite !andb_false_r. reflexivity.
    + rewrite Hk, Hp. reflexivity.
Qed.

Lemma unrecognised_entry_not_downloadable_witness :
  _is_downloadable_entry (EObj (<["key" := VStr "a.txt"]> ∅)) = Ok false.
Proof.
  apply (unrecognised_entry_not_downloadable (EObj (<["key" := VStr "a.txt"]> ∅))).
  left. reflexivity.
Defined.

(** X2: whenever the classifier answers [True], the field its rule reads
    the key from holds a [str] that does not end in [/], and the size it
    reads is not an [int] of 0 or less (for an object it is a positive
    [int]). *)
Theorem downloadable_is_sound (e : entry) :
  _is_downloadable_entry e = Ok true →
  match e with
  | EVal _ => False
  | EDict d =>
      ∃ k, Py.endswith k "/" = false
           ∧ ((d !! "Key" = Some (VStr k)
               ∧ ∀ z, d !! "Size" = Some (VInt z) → 0 < z)
              ∨ (d !! "Key" = None ∧ d !! "path" = Some (VStr k)
                 ∧ ∀ z, d !! "size" = Some (VInt z) → 0 < z))
  | EObj attrs =>
      ∃ k z, Py.endswith k "/" = false
             ∧ attrs !! "size" = Some (VInt z) ∧ 0 < z
             ∧ (attrs !! "key" = Some (VStr k)
                ∨ (attrs !! "key" = None ∧ attrs !! "path" = Some (VStr k)))
  end.
Proof.
  destruct e as [v|d|attrs]; [discriminate| |].
  - unfold _is_downloadable_entry, Py.dict_has, Py.hasattr, Py.subscript,
      Py.get, Py.dict_get.
    destruct (d !! "Key") as [key|] eqn:HK; simpl.
    + destruct key as [|zk|k]; simpl; try discriminate.
      destruct (Py.endswith k "/") eqn:Hk; simpl; [discriminate|].
      intros Hsz. exists k. split; [exact Hk|]. left. split; [reflexivity|].
      intros z Hz. rewrite Hz in Hsz. simpl in Hsz.
      injection Hsz as Hsz. by apply Z.ltb_lt.
    + destruct (d !! "path") as [key|] eqn:Hp; simpl; [|discriminate].
      destruct key as [|zk|k]; simpl; try discriminate.
      destruct (Py.endswith k "/") eqn:Hk; simpl; [discriminate|].
      intros Hsz. exists k. split; [exact Hk|]. right.
      split_and!; try reflexivity.
      intros z Hz. rewrite Hz in Hsz. simpl in Hsz.
      injection Hsz as Hsz. by apply Z.ltb_lt.
  - unfold _is_downloadable_entry, Py.dict_has, Py.hasattr, Py.getattr.
    destruct (attrs !! "size") as [size|] eqn:Hs; simpl;
      [|rewrite !andb_false_r; discriminate].
    rewrite !andb_true_r.
    destruct (attrs !! "key") as [key|] eqn:Hkey; simpl.
    + destruct key as [|zk|k]; simpl; try discriminate.
      destruct (Py.endswith k "/") eqn:Hk; simpl; [discriminate|].
      destruct size as [|z|t]; simpl; try discriminate.
      intros [= Hz]. exists k, z. split_and!; try reflexivity; try exact Hk.
      * by apply Z.ltb_lt.
      * by left.
    + destruct (attrs !! "path") as [key|] eqn:Hp; simpl; [|discriminate].
      destruct key as [|zk|k]; simpl; try discriminate.
      destruct (Py.endswith k "/") eqn:Hk; simpl; [discriminate|].
      destruct size as [|z|t]; simpl; try discriminate.
      intros [= Hz]. exists k, z. split_and!; try reflexivity; try exact Hk.
      * by apply Z.ltb_lt.
      * by right.
Qed.

Lemma downloadable_is_sound_witness :
  ∃ k z, Py.endswith k "/" = false
         ∧ (<["key" := VStr "a.txt"]> (<["size" := VInt 3]> ∅) : gmap string pyval)
             !! "size" = Some (VInt z) ∧ 0 < z
         ∧ ((<["key" := VStr "a.txt"]> (<["size" := VInt 3]> ∅) : gmap string pyval)
              !! "key" = Some (VStr k)
            ∨ ((<["key" := VStr "a.txt"]> (<["size" := VInt 3]> ∅) : gmap string pyval)
                 !! "key" = None
               ∧ (<["key" := VStr "a.txt"]> (<["size" := VInt 3]> ∅) : gmap string pyval)
                   !! "path" = Some (VStr k))).
Proof.
  apply (downloadable_is_sound (aioaws_object "a.txt" (Some 3))).
  vm_compute. reflexivity.
Defined.

(** X3: the first rule that matches decides alone.  A mapping with a
    ["Key"] field is classified by its ["Key"] and ["Size"] only, whatever
    else it holds (a ["path"], a lower-case ["size"]); an object with [key]
    and [size] by these two only. *)
Theorem first_rule_decides (e e' : entry) :
  match e, e' with
  | EDict d, EDict d' =>
      is_Some (d !! "Key") ∧ d !! "Key" = d' !! "Key"
      ∧ d !! "Size" = d' !! "Size"
  | EObj a, EObj a' =>
      is_Some (a !! "key") ∧ is_Some (a !! "size")
      ∧ a !! "key" = a' !! "key" ∧ a !! "size" = a' !! "size"
  | _, _ => False
  end →
  _is_downloadable_entry e = _is_downloadable_entry e'.
Proof.
  destruct e as [v|d|a], e' as [v'|d'|a']; try contradiction.
  - intros ([key HK] & HK' & HS).
    unfold _is_downloadable_entry, Py.dict_has, Py.subscript, Py.get,
      Py.dict_get.
    rewrite <- HK', <- HS, HK. reflexivity.
  - intros ([key Hk] & [size Hs] & Hk' & Hs').
    unfold _is_downloadable_entry, Py.dict_has, Py.hasattr, Py.getattr.
    rewrite <- Hk', <- Hs', Hk, Hs. reflexivity.
Qed.

Lemma first_rule_decides_witness :
  _is_downloadable_entry
    (EDict (<["Key" := VStr "a.txt"]> (<["path" := VStr "d/"]> ∅)))
  = _is_downloadable_entry (EDict (<["Key" := VStr "a.txt"]> ∅)).
Proof.
  apply (first_rule_decides
           (EDict (<["Key" := VStr "a.txt"]> (<["path" := VStr "d/"]> ∅)))
           (EDict (<["Key" := VStr "a.txt"]> ∅))).
  split_and!; [by eexists | reflexivity | reflexivity].
Defined.

(** X4: a key that ends in [/] is rejected before the size is looked at:
    the answer is [False] whatever the size field holds, a [None] or a
    [str] included, for which the comparison with 0 would raise. *)
Theorem prefix_marker_short_circuits (e : entry) (k : string) :
  Py.endswith k "/" = true →
  match e with
  | EVal _ => True
  | EDict d =>
      d !! "Key" = Some (VStr k)
      ∨ (d !! "Key" = None ∧ d !! "path" = Some (VStr k))
  | EObj attrs =>
      is_Some (attrs !! "size")
      ∧ (attrs !! "key" = Some (VStr k)
         ∨ (attrs !! "key" = None ∧ attrs !! "path" = Some (VStr k)))
  end →
  _is_downloadable_entry e = Ok false.
Proof.
  intros Hk. destruct e as [v|d|attrs]; [reflexivity| |].
  - unfold _is_downloadable_entry, Py.dict_has, Py.hasattr, Py.subscript,
      Py.get, Py.dict_get.
    intros [HK|[HK Hp]].
    + rewrite HK. simpl. rewrite Hk. reflexivity.
    + rewrite HK, Hp. simpl. rewrite Hk. reflexivity.
  - unfold _is_downloadable_entry, Py.dict_has, Py.hasattr, Py.getattr.
    intros ([size Hs] & [Hkey|[Hkey Hp]]).
    + rewrite Hkey, Hs. simpl. rewrite Hk. reflexivity.
    + rewrite Hkey, Hp, Hs. simpl. rewrite Hk. reflexivity.
Qed.

Lemma prefix_marker_short_circuits_witness :
  _is_downloadable_entry
    (EObj (<["key" := VStr "logs/"]> (<["size" := VStr "big"]> ∅))) = Ok false.
Proof.
  apply (prefix_marker_short_circuits
           (EObj (<["key" := VStr "logs/"]> (<["size" := VStr "big"]> ∅)))
           "logs/").
  - reflexivity.
  - split; [by eexists | left; reflexivity].
Defined.


(** ** More on the credential gate *)

(** X5: [_require_creds] returns normally exactly when both variables are
    set to a non-empty string; otherwise it names the missing variables on
    stderr, access key first, and raises [SystemExit(1)].  A variable set to
    the empty string counts as missing. *)
Theorem require_creds_passes_iff (cfg : config) (s : unit) :
  (_require_creds cfg s = ([], s, Ok tt)
   ↔ (∃ a, AWS_ACCESS_KEY_ID cfg = Some a ∧ a ≠ EmptyString)
     ∧ (∃ k, AWS_SECRET_ACCESS_KEY cfg = Some k ∧ k ≠ EmptyString))
  ∧ (_require_creds cfg s ≠ ([], s, Ok tt) →
     missing_names cfg ≠ []
     ∧ _require_creds cfg s
       = ([Stderr "Missing required env vars:"
             [pstr (String.concat ", " (missing_names cfg))]], s,
          Raise (SystemExit 1))).
Proof.
  assert (Htruthy : ∀ v, env_truthy v = true ↔ ∃ a, v = Some a ∧ a ≠ EmptyString).
  { intros [a|]; simpl.
    - destruct (String.eqb_spec a EmptyString) as [->|Hne]; simpl.
      + split; [discriminate|]. intros (b & [= <-] & Hb). contradiction.
      + split; [|reflexivity]. intros _. by exists a.
    - split; [discriminate|]. intros (b & Hb & _). discriminate. }
  unfold _require_creds, missing_names. simpl.
  rewrite <- !Htruthy.
  destruct (env_truthy (AWS_ACCESS_KEY_ID cfg)),
    (env_truthy (AWS_SECRET_ACCESS_KEY cfg)); simpl;
    (split; [split; [try discriminate; tauto | intros [? ?]; try discriminate; reflexivity]|]);
    intros H; try (contradiction H; reflexivity); split; try discriminate;
    reflexivity.
Qed.

Lemma require_creds_passes_iff_witness :
  missing_names empty_secret_cfg ≠ []
  ∧ _require_creds empty_secret_cfg tt
    = ([Stderr "Missing required env vars:"
          [pstr (String.concat ", " (missing_names empty_secret_cfg))]], tt,
       Raise (SystemExit 1)).
Proof.
  apply (proj2 (require_creds_passes_iff empty_secret_cfg tt)).
  vm_compute. discriminate.
Defined.


(** ** More on the probes *)

Lemma bucket_is_set (cfg : config) :
  S3_TEST_BUCKET cfg ≠ EmptyString → bucket_set cfg = true.
Proof.
  intros Hb. unfold bucket_set.
  destruct (String.eqb_spec (S3_TEST_BUCKET cfg) EmptyString);
    [contradiction | reflexivity].
Qed.

Lemma getattr_raises_exception (e : entry) (name : string) (x : exn) :
  Py.getattr e name = Raise x → Py.is_Exception x = true.
Proof.
  unfold Py.getattr.
  destruct e as [v|d|attrs]; [| |destruct (attrs !! name)];
    intros [= <-]; reflexivity.
Qed.

(** X6: with a bucket name set, the aioaws probe asks the listing for
    exactly one element, however many it holds, and ends normally whether
    the listing answers, is empty, fails with an exception or hands over an
    object without [key]. *)
Theorem aioaws_probe_one_request (cfg : config) (w : world) (s : unit) :
  S3_TEST_BUCKET cfg ≠ EmptyString →
  (∀ e, failure (aioaws_probe w) = Some e → Py.is_Exception e = true) →
  ∃ log,
    check_aioaws_s3 cfg w s = (log, s, Ok tt)
    ∧ requests log = [ListProbe Aioaws].
Proof.
  intros Hb Hfail. pose proof (bucket_is_set cfg Hb) as Hset.
  unfold check_aioaws_s3, locals, async_for.
  destruct (aioaws_probe w) as [objs fail]. cbn [items failure] in *.
  unfold mbind at 1, M_bind at 1. unfold print at 1, emit at 1.
  rewrite Hset. cbn [negb]. unfold try_except.
  destruct objs as [|obj rest].
  - destruct fail as [e|].
    + simpl. rewrite (Hfail e eq_refl). simpl. eexists. split; reflexivity.
    + simpl. eexists. split; reflexivity.
  - simpl. unfold mbind, M_bind, lift. simpl.
    destruct (Py.getattr obj "key") as [key|x] eqn:Hkey; simpl.
    + eexists. split; reflexivity.
    + rewrite (getattr_raises_exception _ _ _ Hkey). simpl.
      eexists. split; reflexivity.
Qed.

Lemma aioaws_probe_one_request_witness :
  ∃ log,
    check_aioaws_s3 sample_cfg refused_probes_world tt = (log, tt, Ok tt)
    ∧ requests log = [ListProbe Aioaws].
Proof.
  apply (aioaws_probe_one_request sample_cfg refused_probes_world tt).
  - discriminate.
  - intros e [= <-]. reflexivity.
Defined.

(** The obstore probe, with a bucket name set, in terms of its [try]. *)
Lemma obstore_probe_unfold (cfg : config) (w : world) (s : unit) :
  S3_TEST_BUCKET cfg ≠ EmptyString →
  check_obstore_s3 cfg w s
  = (let banner :=
       Stdout "\n=== obstore: S3Store list_async sanity check on bucket {!r} ==="
         [bucket cfg] in
     match obstore_probe_try w 0 with
     | (log, _, Ok _) => (banner :: log, s, Ok tt)
     | (log, _, Raise e) =>
         if Py.is_Exception e
         then ((banner :: log) ++ [obstore_probe_failure cfg e], s, Ok tt)%list
         else (banner :: log, s, Raise e)
     end).
Proof.
  intros Hb. pose proof (bucket_is_set cfg Hb) as Hset.
  unfold check_obstore_s3, locals.
  unfold mbind at 1, M_bind at 1. unfold print at 1, emit at 1.
  rewrite Hset. cbn [negb]. unfold try_except.
  change (obstore_probe_try w 0) with
    ((modify (fun _ => 0);;
      async_for (ListProbe Obstore) (obstore_probe w) (fun batch =>
        modify (fun batch_count => batch_count + 1);;
        match batch with
        | [] => mret Next
        | first :: _ =>
            print "  First path from list_async():" [PObj (obstore_name w first)];;
            print "  -> obstore S3 request signed & accepted" [];;
            mret Break
        end);;
      batch_count ← get;
      if batch_count =? 0
      then print "  list_async() returned no batches, but request was accepted." []
      else mret tt) 0).
  cbv zeta.
  match goal with
  | |- _ = match ?x with _ => _ end => destruct x as [[log c] [[]|e]]
  end; [reflexivity|].
  destruct (Py.is_Exception e); [|reflexivity].
  unfold obstore_probe_failure, print, emit.
  destruct (Py.contains "NoSuchBucket" (Py.str_exn e)); reflexivity.
Qed.

(** Leading empty batches are counted and passed over. *)
Lemma obstore_probe_skips (w : world) (n : nat) (tail : list (list entry))
    (fail : option exn) (count : Z) :
  async_for_items (ListProbe Obstore) (replicate n [] ++ tail)%list fail
    (obstore_probe_batch w) count
  = (let '(log, count', r) :=
       async_for_items (ListProbe Obstore) tail fail (obstore_probe_batch w)
         (count + Z.of_nat n) in
     ((replicate n (Backend (ListProbe Obstore)) ++ log)%list, count', r)).
Proof.
  revert count. induction n as [|n IH]; intros count.
  - simpl. rewrite Z.add_0_r.
    by destruct (async_for_items _ tail fail _ count) as [[l c] r].
  - simpl replicate. simpl app. simpl async_for_items.
    unfold mbind at 1, M_bind at 1. unfold emit at 1.
    unfold mbind at 1, M_bind at 1. unfold obstore_probe_batch at 1.
    unfold mbind at 1, M_bind at 1. unfold modify at 1. simpl.
    rewrite IH.
    replace (count + 1 + Z.of_nat n) with (count + Z.pos (Pos.of_succ_nat n))
      by lia.
    by destruct (async_for_items _ tail fail _ _) as [[l c] r].
Qed.

Lemma replicate_shift {A : Type} (n : nat) (x : A) (l : list A) :
  (replicate n x ++ x :: l = x :: replicate n x ++ l)%list.
Proof. induction n as [|n IH]; [reflexivity|]. simpl. by rewrite IH. Qed.

Lemma requests_app (l1 l2 : list event) :
  requests (l1 ++ l2) = (requests l1 ++ requests l2)%list.
Proof. unfold requests. by rewrite omap_app. Qed.

Lemma stdout_app (l1 l2 : list event) :
  stdout (l1 ++ l2) = (stdout l1 ++ stdout l2)%list.
Proof. unfold stdout. by rewrite omap_app. Qed.

Lemma requests_stdout (text : string) (args : list parg) (l : list event) :
  requests (Stdout text args :: l) = requests l.
Proof. reflexivity. Qed.

Lemma requests_backend (c : call) (l : list event) :
  requests (Backend c :: l) = c :: requests l.
Proof. reflexivity. Qed.

Lemma stdout_stdout (text : string) (args : list parg) (l : list event) :
  stdout (Stdout text args :: l) = (text, args) :: stdout l.
Proof. reflexivity. Qed.

Lemma stdout_backend (c : call) (l : list event) :
  stdout (Backend c :: l) = stdout l.
Proof. reflexivity. Qed.

Lemma requests_backends (n : nat) (c : call) :
  requests (replicate n (Backend c)) = replicate n c.
Proof. induction n as [|n IH]; [reflexivity|]. simpl. by rewrite <- IH. Qed.

Lemma stdout_backends (n : nat) (c : call) :
  stdout (replicate n (Backend c)) = [].
Proof. induction n as [|n IH]; [reflexivity|]. exact IH. Qed.

(** The [try] of the obstore probe after [n] empty batches. *)
Lemma obstore_probe_try_skips (w : world) (n : nat) (tail : list (list entry))
    (fail : option exn) :
  obstore_probe w = Stream (replicate n [] ++ tail)%list fail →
  obstore_probe_try w 0
  = (let '(log, count, r) :=
       async_for_items (ListProbe Obstore) tail fail (obstore_probe_batch w)
         (Z.of_nat n) in
     match r with
     | Ok _ =>
         ((replicate n (Backend (ListProbe Obstore)) ++ log
           ++ (if count =? 0
               then [Stdout "  list_async() returned no batches, but request was accepted." []]
               else []))%list, count, Ok tt)
     | Raise e =>
         ((replicate n (Backend (ListProbe Obstore)) ++ log)%list, count, Raise e)
     end).
Proof.
  intros Hstream. unfold obstore_probe_try, async_for. rewrite Hstream.
  cbn [items failure].
  unfold mbind at 1, M_bind at 1. unfold modify at 1.
  unfold mbind at 1, M_bind at 1. rewrite obstore_probe_skips.
  rewrite Z.add_0_l.
  destruct (async_for_items _ tail fail _ _) as [[log count] [[]|e]];
    [|rewrite app_nil_l; reflexivity].
  unfold mbind, M_bind, get. simpl.
  destruct (count =? 0); simpl; rewrite ?app_nil_r, <- ?app_assoc; reflexivity.
Qed.

(** X7: the obstore probe passes over empty batches and reports the first
    entry of the first batch that has one, then stops: it asks for one
    batch more than it passed over and for none after. *)
Theorem obstore_probe_first_nonempty (cfg : config) (w : world) (s : unit)
    (n : nat) (first : entry) (rest : list entry) (more : list (list entry))
    (fail : option exn) :
  S3_TEST_BUCKET cfg ≠ EmptyString →
  obstore_probe w = Stream (replicate n [] ++ (first :: rest) :: more)%list fail →
  check_obstore_s3 cfg w s
  = ((Stdout "\n=== obstore: S3Store list_async sanity check on bucket {!r} ==="
        [bucket cfg]
      :: replicate (Datatypes.S n) (Backend (ListProbe Obstore))
      ++ [Stdout "  First path from list_async():" [PObj (obstore_name w first)];
          Stdout "  -> obstore S3 request signed & accepted" []])%list,
     s, Ok tt).
Proof.
  intros Hb Hstream.
  rewrite (obstore_probe_unfold cfg w s Hb).
  rewrite (obstore_probe_try_skips w n _ fail Hstream). cbv zeta.
  simpl async_for_items. unfold mbind, M_bind, emit, print, modify,
    obstore_probe_batch. simpl.
  replace (Z.of_nat n + 1 =? 0) with false by (symmetry; apply Z.eqb_neq; lia).
  simpl replicate. rewrite <- replicate_shift. reflexivity.
Qed.

Lemma obstore_probe_first_nonempty_witness :
  check_obstore_s3 sample_cfg sample_world tt
  = ([Stdout "\n=== obstore: S3Store list_async sanity check on bucket {!r} ==="
        [bucket sample_cfg];
      Backend (ListProbe Obstore);
      Stdout "  First path from list_async():" [PObj (EVal (VStr "a.txt"))];
      Stdout "  -> obstore S3 request signed & accepted" []],
     tt, Ok tt).
Proof.
  apply (obstore_probe_first_nonempty sample_cfg sample_world tt 0
           (obstore_dict "a.txt" (Some 3)) [] [] None).
  - discriminate.
  - reflexivity.
Defined.

(** X8: a listing failure of the obstore probe, at once or after empty
    batches, is reported by exactly one line and the probe ends normally:
    the line that says the credentials are fine and names the bucket when
    the message of the exception contains [NoSuchBucket], the line with the
    message otherwise. *)
Theorem obstore_probe_failure_reported (cfg : config) (w : world) (s : unit)
    (n : nat) (e : exn) :
  S3_TEST_BUCKET cfg ≠ EmptyString →
  obstore_probe w = Stream (replicate n []) (Some e) →
  Py.is_Exception e = true →
  check_obstore_s3 cfg w s
  = ((Stdout "\n=== obstore: S3Store list_async sanity check on bucket {!r} ==="
        [bucket cfg]
      :: replicate (Datatypes.S n) (Backend (ListProbe Obstore))
      ++ [if Py.contains "NoSuchBucket" (Py.str_exn e)
          then Stdout "  -> credentials are OK, but bucket does not exist or is wrong:"
                 [pstr (S3_TEST_BUCKET cfg)]
          else Stdout "  obstore S3 call failed:" [pstr (Py.str_exn e)]])%list,
     s, Ok tt).
Proof.
  intros Hb Hstream He.
  rewrite (obstore_probe_unfold cfg w s Hb).
  rewrite <- (app_nil_r (replicate n [])) in Hstream.
  rewrite (obstore_probe_try_skips w n [] (Some e) Hstream). cbv zeta.
  simpl async_for_items. unfold mbind, M_bind, emit, raise. simpl.
  rewrite He. unfold obstore_probe_failure.
  simpl replicate. rewrite <- replicate_shift.
  rewrite <- app_assoc. reflexivity.
Qed.

Lemma obstore_probe_failure_reported_witness :
  check_obstore_s3 sample_cfg refused_probes_world tt
  = ([Stdout "\n=== obstore: S3Store list_async sanity check on bucket {!r} ==="
        [bucket sample_cfg];
      Backend (ListProbe Obstore);
      Stdout "  -> credentials are OK, but bucket does not exist or is wrong:"
        [pstr "bkt"]],
     tt, Ok tt).
Proof.
  apply (obstore_probe_failure_reported sample_cfg refused_probes_world tt 0
           (Error "GenericError" "NoSuchBucket: bkt")); [discriminate | reflexivity..].
Defined.

(** X9: when the obstore listing ends without an entry, the probe says
    that the request was accepted only if it saw no batch at all; after one
    or more empty batches it prints nothing beyond its banner, neither the
    acceptance nor a failure. *)
Theorem obstore_probe_empty_batches (cfg : config) (w : world) (s : unit)
    (n : nat) :
  S3_TEST_BUCKET cfg ≠ EmptyString →
  obstore_probe w = Stream (replicate n []) None →
  ∃ log,
    check_obstore_s3 cfg w s = (log, s, Ok tt)
    ∧ requests log = replicate (Datatypes.S n) (ListProbe Obstore)
    ∧ stdout log
      = (("\n=== obstore: S3Store list_async sanity check on bucket {!r} ===",
          [bucket cfg])
         :: match n with
            | O => [("  list_async() returned no batches, but request was accepted.",
                     [])]
            | Datatypes.S _ => []
            end).
Proof.
  intros Hb Hstream.
  rewrite (obstore_probe_unfold cfg w s Hb).
  rewrite <- (app_nil_r (replicate n [])) in Hstream.
  rewrite (obstore_probe_try_skips w n [] None Hstream). cbv zeta.
  simpl async_for_items. unfold mbind, M_bind, emit. simpl.
  eexists. split; [reflexivity|].
  split.
  - rewrite requests_stdout, requests_app, requests_backends, requests_backend.
    rewrite replicate_shift. destruct n; simpl; by rewrite ?app_nil_r.
  - rewrite stdout_stdout, stdout_app, stdout_backends, stdout_backend.
    destruct n; reflexivity.
Qed.

Lemma obstore_probe_empty_batches_witness :
  ∃ log,
    check_obstore_s3 sample_cfg empty_batches_world tt = (log, tt, Ok tt)
    ∧ requests log = replicate 3 (ListProbe Obstore)
    ∧ stdout log
      = [("\n=== obstore: S3Store list_async sanity check on bucket {!r} ===",
          [bucket sample_cfg])].
Proof.
  apply (obstore_probe_empty_batches sample_cfg empty_batches_world tt 2);
    [discriminate | reflexivity].
Defined.


(** ** More on the listings *)

(** One object of the aioaws listing that has a [key]. *)
Lemma aioaws_list_object_spec (max_items : Z) (obj : entry) (key : pyval)
    (keys : list pyval) (count : Z) :
  Py.getattr obj "key" = Ok key →
  aioaws_list_object max_items obj (keys, count)
  = ([Stdout "  -" [PObj (EVal key)]], ((keys ++ [key])%list, count + 1),
     Ok (if max_items <=? count + 1 then Break else Next)).
Proof.
  intros Hkey. unfold aioaws_list_object.
  unfold mbind at 1, M_bind at 1. unfold lift at 1. rewrite Hkey.
  unfold mbind at 1, M_bind at 1. unfold print at 1, emit at 1.
  unfold mbind at 1, M_bind at 1. unfold lift at 1.
  unfold mbind at 1, M_bind at 1. unfold modify at 1.
  rewrite break_at_spec. reflexivity.
Qed.

Lemma aioaws_end_exception (objs : list entry) (fail : option exn) (e : exn) :
  (∀ e, fail = Some e → Py.is_Exception e = true) →
  aioaws_end objs fail = Some e → Py.is_Exception e = true.
Proof.
  intros Hfail. induction objs as [|obj rest IH]; simpl; [by apply Hfail|].
  destruct (Py.getattr obj "key") as [key|x] eqn:Hkey; [exact IH|].
  intros [= <-]. by eapply getattr_raises_exception.
Qed.

(** The loop of the aioaws listing from any state: it prints and appends
    the keys of the objects in order until the count reaches the limit (at
    least one object is taken when there is one); if the limit is not
    reached it ends as the listing does, or on the first object without
    [key]. *)
Lemma aioaws_list_loop (max_items : Z) (fail : option exn)
    (objs : list entry) (keys : list pyval) (count : Z) :
  let n := Z.to_nat (Z.max 1 (max_items - count)) in
  let taken := take n (leading_keys objs) in
  ∃ log,
    async_for_items (ListPage Aioaws) objs fail
      (aioaws_list_object max_items) (keys, count)
    = (log, ((keys ++ taken)%list, count + Z.of_nat (length taken)),
       match (if decide (n ≤ length (leading_keys objs))%nat
              then None else aioaws_end objs fail) with
       | Some e => Raise e
       | None => Ok tt
       end)
    ∧ stdout log = map key_line taken.
Proof.
  revert keys count. induction objs as [|obj rest IH]; intros keys count;
    cbv zeta.
  - simpl leading_keys. rewrite take_nil. simpl length.
    rewrite app_nil_r, Z.add_0_r.
    destruct (decide _) as [Hn|_]; [exfalso; clear -Hn; lia|].
    simpl. unfold mbind, M_bind, emit. simpl.
    destruct fail as [e|]; simpl; eexists; split; reflexivity.
  - simpl async_for_items.
    unfold mbind at 1, M_bind at 1. unfold emit at 1.
    unfold mbind at 1, M_bind at 1.
    simpl leading_keys. simpl aioaws_end.
    destruct (Py.getattr obj "key") as [key|x] eqn:Hkey.
    + rewrite (aioaws_list_object_spec max_items obj key keys count Hkey).
      destruct (max_items <=? count + 1) eqn:Hle.
      * apply Z.leb_le in Hle.
        replace (Z.to_nat (Z.max 1 (max_items - count))) with 1%nat
          by (clear -Hle; lia).
        simpl take. rewrite take_0. simpl length.
        destruct (decide _) as [_|Hn]; [|exfalso; clear -Hn; lia].
        eexists. split; reflexivity.
      * apply Z.leb_gt in Hle.
        destruct (IH (keys ++ [key])%list (count + 1)) as (log & Hloop & Hout).
        cbv zeta in Hloop, Hout. rewrite Hloop.
        replace (Z.to_nat (Z.max 1 (max_items - count)))
          with (Datatypes.S (Z.to_nat (Z.max 1 (max_items - (count + 1)))))
          by (clear -Hle; lia).
        simpl take. simpl length. rewrite <- app_assoc. simpl.
        eexists. split.
        -- do 2 f_equal; [f_equal; clear; lia|].
           destruct (decide _), (decide _); try reflexivity;
             exfalso; lia.
        -- rewrite stdout_backend, stdout_stdout, Hout. reflexivity.
    + rewrite take_nil. simpl length. rewrite app_nil_r, Z.add_0_r.
      destruct (decide _) as [Hn|_]; [exfalso; clear -Hn; lia|].
      unfold aioaws_list_object.
      unfold mbind at 1, M_bind at 1. unfold lift at 1. rewrite Hkey.
      eexists. split; reflexivity.
Qed.

(** X10: with a bucket name set, the aioaws listing returns the [key]s of
    the objects it is handed, in order, up to the limit (and one, if there
    is one, for a limit of 0 or less).  On stdout it prints its banner, one
    line for each key returned, and one last line: the summary with the
    number of keys when the limit was reached or the listing ended, the
    failure with its exception when the listing failed or an object had no
    [key] before the limit was reached.  The keys gathered up to a failure
    are returned. *)
Theorem list_aioaws_contents_keeps_partial (cfg : config) (w : world)
    (max_items : Z) :
  S3_TEST_BUCKET cfg ≠ EmptyString →
  (∀ e, failure (aioaws_objects w) = Some e → Py.is_Exception e = true) →
  let keys := leading_keys (items (aioaws_objects w)) in
  let n := Z.to_nat (Z.max 1 max_items) in
  let ending :=
    if decide (n ≤ length keys)%nat then None
    else aioaws_end (items (aioaws_objects w)) (failure (aioaws_objects w)) in
  ∃ log,
    list_aioaws_contents cfg w max_items tt = (log, tt, Ok (take n keys))
    ∧ stdout log
      = (("\n=== aioaws: listing up to {} objects (Downloading only files) from bucket {!r} ===",
          [pint max_items; bucket cfg])
         :: map key_line (take n keys)
         ++ [closing_line Aioaws max_items (length (take n keys)) ending])%list.
Proof.
  intros Hb Hfail. cbv zeta. pose proof (bucket_is_set cfg Hb) as Hset.
  destruct (aioaws_list_loop max_items (failure (aioaws_objects w))
              (items (aioaws_objects w)) [] 0) as (log & Hloop & Hout).
  cbv zeta in Hloop, Hout.
  rewrite Z.sub_0_r, app_nil_l, Z.add_0_l in Hloop.
  rewrite Z.sub_0_r in Hout.
  unfold list_aioaws_contents, locals.
  unfold mbind at 1, M_bind at 1. unfold print at 1, emit at 1.
  rewrite Hset. cbn [negb].
  unfold mbind at 1, M_bind at 1. unfold try_except.
  unfold mbind at 1, M_bind at 1. unfold async_for.
  change (async_for_items (ListPage Aioaws) (items (aioaws_objects w))
            (failure (aioaws_objects w)) _ ([], 0))
    with (async_for_items (ListPage Aioaws) (items (aioaws_objects w))
            (failure (aioaws_objects w)) (aioaws_list_object max_items) ([], 0)).
  rewrite Hloop.
  destruct (if decide _ then None else aioaws_end _ _) as [e|] eqn:Hend.
  - assert (He : Py.is_Exception e = true).
    { destruct (decide _); [discriminate|].
      by eapply aioaws_end_exception. }
    rewrite He. eexists. split; [simpl; reflexivity|].
    rewrite stdout_stdout, app_nil_r, stdout_app, Hout. reflexivity.
  - eexists. split; [simpl; reflexivity|].
    rewrite stdout_stdout, app_nil_r, stdout_app, Hout. reflexivity.
Qed.

Lemma list_aioaws_contents_keeps_partial_witness :
  ∃ log,
    list_aioaws_contents sample_cfg sample_world 100 tt
    = (log, tt, Ok [VStr "a.txt"; VStr "b.txt"])
    ∧ stdout log
      = [("\n=== aioaws: listing up to {} objects (Downloading only files) from bucket {!r} ===",
          [pint 100; bucket sample_cfg]);
         key_line (VStr "a.txt");
         key_line (VStr "b.txt");
         ("  aioaws bucket listing failed:",
          [PExn (Error "HTTPStatusError" "503")])].
Proof.
  apply (list_aioaws_contents_keeps_partial sample_cfg sample_world 100).
  - discriminate.
  - intros e [= <-]. reflexivity.
Defined.


Lemma obstore_list_entry_spec (w : world) (max_items : Z) (e : entry)
    (keys : list pyval) (count : Z) :
  obstore_list_entry w max_items e (keys, count)
  = ([Stdout "  -" [PObj (EVal (obstore_key w e))]],
     ((keys ++ [obstore_key w e])%list, count + 1),
     Ok (if max_items <=? count + 1 then Break else Next)).
Proof.
  unfold obstore_list_entry, obstore_key. cbv zeta.
  unfold mbind at 1, M_bind at 1. unfold print at 1, emit at 1.
  unfold mbind at 1, M_bind at 1. unfold modify at 1.
  rewrite break_at_spec. reflexivity.
Qed.


(** The two capped loops again, with what they print: one line for each
    key they append. *)
Lemma for_in_cap_stdout {A : Type} (max_items : Z)
    (body : A → M listing flow) (g : A → pyval) (xs : list A) :
  (∀ x keys count,
     ∃ l,
       body x (keys, count)
       = (l, ((keys ++ [g x])%list, count + 1),
          Ok (if max_items <=? count + 1 then Break else Next))
       ∧ stdout l = [key_line (g x)]) →
  ∀ (keys : list pyval) (count : Z),
    count < max_items →
    let taken := take (Z.to_nat (max_items - count)) (map g xs) in
    ∃ log,
      for_in xs body (keys, count)
      = (log, ((keys ++ taken)%list, count + Z.of_nat (length taken)), Ok tt)
      ∧ stdout log = map key_line taken.
Proof.
  intros Hbody. induction xs as [|x rest IH]; intros keys count Hlt; cbv zeta.
  - exists []. simpl. rewrite take_nil. simpl.
    rewrite app_nil_r, Z.add_0_r. split; reflexivity.
  - destruct (Hbody x keys count) as (l & Hl & Hlout).
    simpl for_in. unfold mbind at 1, M_bind at 1. rewrite Hl.
    replace (Z.to_nat (max_items - count))
      with (Datatypes.S (Z.to_nat (max_items - (count + 1))))
      by (clear -Hlt; lia).
    simpl map. simpl take. simpl length.
    destruct (max_items <=? count + 1) eqn:Hle.
    + apply Z.leb_le in Hle.
      replace (Z.to_nat (max_items - (count + 1))) with 0%nat
        by (clear -Hle; lia).
      rewrite take_0. eexists. split; [simpl; reflexivity|].
      rewrite app_nil_r. exact Hlout.
    + apply Z.leb_gt in Hle.
      destruct (IH (keys ++ [g x])%list (count + 1) Hle) as (log & Hlog & Hout).
      cbv zeta in Hlog, Hout. rewrite Hlog.
      eexists. rewrite <- app_assoc. split.
      * simpl. do 3 f_equal. clear. lia.
      * rewrite stdout_app, Hlout, Hout. reflexivity.
Qed.

Lemma async_for_cap_stdout {A : Type} (c : call) (max_items : Z)
    (inner : A → M listing flow) (ks : A → list pyval) (fail : option exn)
    (xs : list A) :
  Forall (fun x => ∀ keys count,
    count < max_items →
    let taken := take (Z.to_nat (max_items - count)) (ks x) in
    ∃ log,
      inner x (keys, count)
      = (log, ((keys ++ taken)%list, count + Z.of_nat (length taken)),
         Ok (if max_items <=? count + Z.of_nat (length taken)
             then Break else Next))
      ∧ stdout log = map key_line taken) xs →
  ∀ (keys : list pyval) (count : Z),
    count < max_items →
    let all := concat (map ks xs) in
    let n := Z.to_nat (max_items - count) in
    ∃ log,
      async_for_items c xs fail inner (keys, count)
      = (log,
         ((keys ++ take n all)%list, count + Z.of_nat (length (take n all))),
         match fail with
         | Some e => if decide (length all < n)%nat then Raise e else Ok tt
         | None => Ok tt
         end)
      ∧ stdout log = map key_line (take n all).
Proof.
  induction 1 as [|x rest Hx Hrest IH]; intros keys count Hlt; cbv zeta.
  - simpl concat. rewrite take_nil. simpl length.
    rewrite app_nil_r, Z.add_0_r.
    simpl. unfold mbind, M_bind, emit. simpl.
    destruct fail as [e|]; simpl; [|by eexists].
    destruct (decide _) as [_|Hn]; [by eexists|].
    exfalso. apply Hn. clear -Hlt. lia.
  - destruct (Hx keys count Hlt) as (log1 & Hinner & Hout1).
    cbv zeta in Hinner, Hout1.
    set (n := Z.to_nat (max_items - count)) in *.
    simpl map. simpl concat.
    simpl async_for_items.
    unfold mbind at 1, M_bind at 1. unfold emit at 1.
    unfold mbind at 1, M_bind at 1. rewrite Hinner.
    pose proof (length_take (ks x) n) as Hlen.
    destruct (max_items <=? count + Z.of_nat (length (take n (ks x))))
      eqn:Hle.
    + apply Z.leb_le in Hle.
      assert (Hn : (n ≤ length (ks x))%nat) by (subst n; lia).
      rewrite (take_app_le _ _ _ Hn).
      assert (Hall : ¬ (length (ks x ++ concat (map ks rest)) < n)%nat)
        by (rewrite length_app; lia).
      eexists. split.
      * simpl. destruct fail as [e|]; [|reflexivity].
        destruct (decide _); [contradiction|reflexivity].
      * rewrite app_nil_r, stdout_backend. exact Hout1.
    + apply Z.leb_gt in Hle.
      assert (Hn : (length (ks x) ≤ n)%nat) by (subst n; lia).
      rewrite (take_ge _ _ Hn) in *.
      destruct (IH (keys ++ ks x)%list (count + Z.of_nat (length (ks x))) Hle)
        as (log & Hlog & Hout).
      cbv zeta in Hlog, Hout. rewrite Hlog.
      rewrite take_app, (take_ge _ _ Hn).
      replace (Z.to_nat (max_items - (count + Z.of_nat (length (ks x)))))
        with (n - length (ks x))%nat in * by (subst n; lia).
      eexists. split.
      * simpl. rewrite !length_app, Nat2Z.inj_add, Z.add_assoc.
        rewrite <- (app_assoc keys).
        destruct fail as [e|]; [|reflexivity].
        destruct (decide (length (concat (map ks rest)) < n - length (ks x))%nat),
          (decide (length (ks x) + length (concat (map ks rest)) < n)%nat);
          try reflexivity; exfalso; lia.
      * rewrite stdout_backend, stdout_app, Hout1, Hout, map_app.
        reflexivity.
Qed.

Lemma obstore_list_batch_stdout (w : world) (max_items : Z)
    (batch : list entry) (keys : list pyval) (count : Z) :
  count < max_items →
  let taken := take (Z.to_nat (max_items - count)) (map (obstore_key w) batch) in
  ∃ log,
    obstore_list_batch w max_items batch (keys, count)
    = (log, ((keys ++ taken)%list, count + Z.of_nat (length taken)),
       Ok (if max_items <=? count + Z.of_nat (length taken)
           then Break else Next))
    ∧ stdout log = map key_line taken.
Proof.
  intros Hlt. cbv zeta.
  destruct (for_in_cap_stdout max_items (obstore_list_entry w max_items)
              (obstore_key w) batch) with (keys := keys) (count := count)
    as (log & Hlog & Hout).
  { intros e ks c. eexists. split; [apply obstore_list_entry_spec|reflexivity]. }
  { exact Hlt. }
  cbv zeta in Hlog, Hout. unfold obstore_list_batch.
  unfold mbind at 1, M_bind at 1. rewrite Hlog, break_at_spec.
  eexists. cbn [fst snd]. rewrite app_nil_r. split; [reflexivity|exact Hout].
Qed.

(** X11: with a bucket name set and a limit of at least 1, the obstore
    listing returns the names of the entries of its batches, in order and
    across batch boundaries, cut at the limit.  On stdout it prints its
    banner, one line for each name returned, and one last line: the failure
    with its exception when the listing fails before the limit is reached,
    the summary with the number of names otherwise.  The names gathered up
    to a failure are returned. *)
Theorem list_obstore_contents_take (cfg : config) (w : world) (max_items : Z) :
  1 <= max_items →
  S3_TEST_BUCKET cfg ≠ EmptyString →
  (∀ e, failure (obstore_batches w) = Some e → Py.is_Exception e = true) →
  let all := map (obstore_key w) (concat (items (obstore_batches w))) in
  let names := take (Z.to_nat max_items) all in
  let ending :=
    match failure (obstore_batches w) with
    | Some e =>
        if decide (length all < Z.to_nat max_items)%nat then Some e else None
    | None => None
    end in
  ∃ log,
    list_obstore_contents cfg w max_items tt = (log, tt, Ok names)
    ∧ stdout log
      = (("\n=== obstore: listing up to {} objects (Downloading only files) from bucket {!r} ===",
          [pint max_items; bucket cfg])
         :: map key_line names
         ++ [closing_line Obstore max_items (length names) ending])%list.
Proof.
  intros Hmax Hb Hfail. cbv zeta. pose proof (bucket_is_set cfg Hb) as Hset.
  destruct (async_for_cap_stdout (ListPage Obstore) max_items
              (obstore_list_batch w max_items) (map (obstore_key w))
              (failure (obstore_batches w)) (items (obstore_batches w)))
    with (keys := @nil pyval) (count := 0) as (log & Hloop & Hout).
  { apply Forall_forall. intros batch _ keys count Hlt.
    by apply obstore_list_batch_stdout. }
  { lia. }
  cbv zeta in Hloop, Hout.
  rewrite Z.sub_0_r, app_nil_l, Z.add_0_l, <- concat_map in Hloop.
  rewrite Z.sub_0_r, <- concat_map in Hout.
  unfold list_obstore_contents, locals.
  unfold mbind at 1, M_bind at 1. unfold print at 1, emit at 1.
  rewrite Hset. cbn [negb].
  unfold mbind at 1, M_bind at 1. unfold try_except.
  unfold mbind at 1, M_bind at 1. unfold async_for.
  change (async_for_items (ListPage Obstore) (items (obstore_batches w))
            (failure (obstore_batches w)) _ ([], 0))
    with (async_for_items (ListPage Obstore) (items (obstore_batches w))
            (failure (obstore_batches w)) (obstore_list_batch w max_items)
            ([], 0)).
  rewrite Hloop.
  destruct (failure (obstore_batches w)) as [e|] eqn:He.
  - destruct (decide _).
    + rewrite (Hfail e eq_refl). eexists. split; [simpl; reflexivity|].
      rewrite stdout_stdout, app_nil_r, stdout_app, Hout. reflexivity.
    + eexists. split; [simpl; reflexivity|].
      rewrite stdout_stdout, app_nil_r, stdout_app, Hout. reflexivity.
  - eexists. split; [simpl; reflexivity|].
    rewrite stdout_stdout, app_nil_r, stdout_app, Hout. reflexivity.
Qed.

Lemma list_obstore_contents_take_witness :
  ∃ log,
    list_obstore_contents sample_cfg sample_world 1 tt
    = (log, tt, Ok [VStr "a.txt"])
    ∧ stdout log
      = [("\n=== obstore: listing up to {} objects (Downloading only files) from bucket {!r} ===",
          [pint 1; bucket sample_cfg]);
         key_line (VStr "a.txt");
         ("  -> obstore listed {} objects (limit {}).", [pint 1; pint 1])].
Proof.
  apply (list_obstore_contents_take sample_cfg sample_world 1).
  - lia.
  - discriminate.
  - intros e [=].
Defined.



(** ** More on the downloads *)

Example joinpath_root : Path.joinpath "/" "obstore" = "/obstore".
Proof. reflexivity. Qed.

Example joinpath_absolute :
  Path.joinpath "/tmp/out" "obstore" = "/tmp/out/obstore".
Proof. reflexivity. Qed.

Example joinpath_current : Path.joinpath "." "obstore" = "obstore".
Proof. reflexivity. Qed.

(** X13: each of the three download functions first creates its backend's
    directory, [outdir / name] as [pathlib] joins them.  If that fails the
    exception leaves the function.  Otherwise it prints its banner (and a
    notice when there is no key) and returns: whatever the keys, no
    directory of a key is created and no object is requested. *)
Theorem download_files_only_banner (w : world) (b : backend)
    (keys : list pyval) (outdir : string) (s : unit) :
  let base := Path.joinpath outdir (backend_name b) in
  download_files w b keys outdir s
  = match mkdir w base with
    | Some e => ([Mkdir base], s, Raise e)
    | None =>
        ((Mkdir base
          :: Stdout ("\n=== " ++ backend_name b
                     ++ ": downloading {} objects into {} ===")
               [pint (Z.of_nat (length keys)); pstr base]
          :: match keys with
             | [] => [Stdout "  (no keys to download)" []]
             | _ :: _ => []
             end), s, Ok tt)
    end.
Proof.
  cbv zeta. unfold download_files, locals, do_mkdir.
  unfold mbind at 1, M_bind at 1. unfold mbind at 1, M_bind at 1.
  unfold emit at 1.
  destruct (mkdir w (Path.joinpath outdir (backend_name b))) as [e|];
    [reflexivity|].
  simpl. unfold mbind at 1, M_bind at 1. unfold print at 1, emit at 1.
  destruct keys as [|key keys]; [reflexivity|].
  rewrite download_loop_skips. reflexivity.
Qed.

(** ** Whole runs *)

Lemma total_locals {S S' A : Type} (init : S') (body : M S' A) :
  total body → total (locals init body : M S A).
Proof.
  intros Hb s. destruct (locals_total init body s Hb) as (log & a & H).
  by exists log, s, a.
Qed.

Lemma total_for_in {A S : Type} (xs : list A) (body : A → M S flow) :
  Forall (fun x => total (body x)) xs → total (for_in xs body).
Proof.
  induction 1 as [|x rest Hx Hrest IH]; simpl; [apply total_ret|].
  apply total_bind; [exact Hx|]. intros [|]; [exact IH | apply total_ret].
Qed.

Lemma total_async_for {A S : Type} (c : call) (xs : list A)
    (body : A → M S flow) :
  Forall (fun x => total (body x)) xs →
  total (async_for_items c xs None body).
Proof.
  induction 1 as [|x rest Hx Hrest IH]; simpl.
  - apply total_bind; [by intros s; eexists _, _, _|]. intros _. apply total_ret.
  - apply total_bind; [by intros s; eexists _, _, _|]. intros _.
    apply total_bind; [exact Hx|]. intros [|]; [exact IH | apply total_ret].
Qed.

Lemma only_exceptions_for_in {A S : Type} (xs : list A) (body : A → M S flow) :
  (∀ x, only_exceptions (body x)) → only_exceptions (for_in xs body).
Proof.
  intros Hbody. induction xs as [|x rest IH]; simpl.
  - apply only_exceptions_of_total, total_ret.
  - apply only_exceptions_bind; [apply Hbody|].
    intros [|]; [exact IH | apply only_exceptions_of_total, total_ret].
Qed.

Lemma total_break_at (max_items : Z) : total (break_at max_items).
Proof. intros st. rewrite break_at_spec. by eexists _, _, _. Qed.

Lemma total_modify {S : Type} (f : S → S) : total (modify f).
Proof. intros s. by eexists _, _, _. Qed.

Lemma total_get {S : Type} : total (get : M S S).
Proof. intros s. by eexists _, _, _. Qed.

Lemma total_emit {S : Type} (ev : event) : total (emit ev : M S unit).
Proof. intros s. by eexists _, _, _. Qed.

(** The aioboto3 listing ends normally when its paginator delivers
    well-formed pages to the end, for any limit and bucket name. *)
Lemma list_aioboto3_contents_total (cfg : config) (w : world) (max_items : Z) :
  failure (aioboto3_pages w) = None →
  Forall well_formed_page (items (aioboto3_pages w)) →
  total (list_aioboto3_contents cfg w max_items : M unit (list pyval)).
Proof.
  intros Hfail Hwf. unfold list_aioboto3_contents.
  apply total_locals. apply total_bind; [apply total_print|]. intros _.
  destruct (negb (bucket_set cfg)).
  { apply total_bind; [apply total_print|]. intros _. apply total_ret. }
  apply total_bind.
  - unfold async_for. rewrite Hfail. apply total_async_for.
    eapply Forall_impl; [|exact Hwf]. intros pg Hpg.
    unfold aioboto3_page. apply total_bind; [|intros _; apply total_break_at].
    apply total_for_in. eapply Forall_impl; [|exact Hpg].
    intros obj [key Hkey]. unfold aioboto3_object.
    unfold object_key in Hkey.
    destruct (Py.subscript obj "Key") as [k|] eqn:Hsub; [|discriminate].
    apply total_bind; [by intros s; exists [], s, k|].
    intros k'. apply total_bind; [apply total_print|]. intros _.
    apply total_bind; [apply total_modify|]. intros _. apply total_break_at.
  - intros _. apply total_bind; [apply total_get|]. intros st.
    apply total_bind; [apply total_print|]. intros _. apply total_ret.
Qed.

(** The aioaws and obstore listings end normally whatever their listing
    does, as long as what it raises is an [Exception]. *)
Lemma list_aioaws_contents_total (cfg : config) (w : world) (max_items : Z) :
  (∀ e, failure (aioaws_objects w) = Some e → Py.is_Exception e = true) →
  total (list_aioaws_contents cfg w max_items : M unit (list pyval)).
Proof.
  intros Hfail. unfold list_aioaws_contents.
  apply total_locals. apply total_bind; [apply total_print|]. intros _.
  destruct (negb (bucket_set cfg)).
  { apply total_bind; [apply total_print|]. intros _. apply total_ret. }
  apply total_bind.
  - apply try_except_total; [|intros e; apply total_print].
    apply only_exceptions_bind.
    + apply only_exceptions_async_for; [exact Hfail|]. intros obj.
      apply only_exceptions_bind; [apply only_exceptions_getattr|]. intros shown.
      apply only_exceptions_bind;
        [apply only_exceptions_of_total, total_print|]. intros _.
      apply only_exceptions_bind; [apply only_exceptions_getattr|]. intros key.
      apply only_exceptions_of_total.
      apply total_bind; [apply total_modify|]. intros _. apply total_break_at.
    + intros _. apply only_exceptions_of_total.
      apply total_bind; [apply total_get|]. intros st. apply total_print.
  - intros _. apply total_bind; [apply total_get|]. intros st. apply total_ret.
Qed.

Lemma list_obstore_contents_total (cfg : config) (w : world) (max_items : Z) :
  (∀ e, failure (obstore_batches w) = Some e → Py.is_Exception e = true) →
  total (list_obstore_contents cfg w max_items : M unit (list pyval)).
Proof.
  intros Hfail. unfold list_obstore_contents.
  apply total_locals. apply total_bind; [apply total_print|]. intros _.
  destruct (negb (bucket_set cfg)).
  { apply total_bind; [apply total_print|]. intros _. apply total_ret. }
  apply total_bind.
  - apply try_except_total; [|intros e; apply total_print].
    apply only_exceptions_bind.
    + apply only_exceptions_async_for; [exact Hfail|]. intros batch.
      apply only_exceptions_of_total.
      apply total_bind; [|intros _; apply total_break_at].
      apply total_for_in. apply Forall_forall. intros e _. cbv zeta.
      apply total_bind; [apply total_print|]. intros _.
      apply total_bind; [apply total_modify|]. intros _. apply total_break_at.
    + intros _. apply only_exceptions_of_total.
      apply total_bind; [apply total_get|]. intros st. apply total_print.
  - intros _. apply total_bind; [apply total_get|]. intros st. apply total_ret.
Qed.

(** X14: a run exits with status 0 whenever the credentials are set, the
    arguments parse, the directories can be created, STS answers and the
    aioboto3 paginator delivers well-formed pages to its end, whatever the
    two probes and the aioaws and obstore listings do, failures included,
    as long as what they raise is an [Exception]. *)
Theorem run_exits_zero (cfg : config) (w : world) (a : args) (who : identity) :
  env_truthy (AWS_ACCESS_KEY_ID cfg) = true →
  env_truthy (AWS_SECRET_ACCESS_KEY cfg) = true →
  parse_args w = Ok a →
  (∀ p, mkdir w p = None) →
  sts_get_caller_identity w = Ok who →
  (∀ e, failure (aioaws_probe w) = Some e → Py.is_Exception e = true) →
  (∀ e, failure (obstore_probe w) = Some e → Py.is_Exception e = true) →
  failure (aioboto3_pages w) = None →
  Forall well_formed_page (items (aioboto3_pages w)) →
  (∀ e, failure (aioaws_objects w) = Some e → Py.is_Exception e = true) →
  (∀ e, failure (obstore_batches w) = Some e → Py.is_Exception e = true) →
  (run cfg w).2 = 0.
Proof.
  intros Hid Hsecret Hargs Hmkdir Hsts Hp1 Hp2 Hpages Hwf Hl1 Hl2.
  assert (Hmain : total (main cfg w)).
  { unfold main.
    apply total_bind.
    { intros s. rewrite (require_creds_present cfg s Hid Hsecret).
      by eexists _, _, _. }
    intros _. apply total_bind.
    { intros s. unfold lift. rewrite Hargs. by eexists _, _, _. }
    intros a'. cbv zeta. apply total_bind.
    { unfold do_mkdir. apply total_bind; [apply total_emit|]. intros _.
      rewrite Hmkdir. apply total_ret. }
    intros _. apply total_bind.
    { unfold check_aioboto3_sts. apply total_locals.
      apply total_bind; [apply total_print|]. intros _.
      apply total_bind; [apply total_emit|]. intros _.
      apply total_bind.
      { intros s. unfold lift. rewrite Hsts. by eexists _, _, _. }
      intros resp. repeat (apply total_bind; [apply total_print|]; intros _).
      apply total_print. }
    intros _. apply total_bind.
    { intros []. destruct (check_aioaws_s3_total cfg w tt Hp1) as [log Hlog].
      rewrite Hlog. by eexists _, _, _. }
    intros _. apply total_bind.
    { intros []. destruct (check_obstore_s3_total cfg w tt Hp2) as [log Hlog].
      rewrite Hlog. by eexists _, _, _. }
    intros _. apply total_bind;
      [by apply list_aioboto3_contents_total|]. intros k1.
    apply total_bind; [by apply list_aioaws_contents_total|]. intros k2.
    apply total_bind; [by apply list_obstore_contents_total|]. intros k3.
    assert (Hdown : ∀ b keys, total (download_files w b keys (outdir a')
                                     : M unit unit)).
    { intros b keys [].
      destruct (download_files_total w b keys (outdir a') tt (Hmkdir _))
        as [log Hlog].
      rewrite Hlog. by eexists _, _, _. }
    apply total_bind; [apply Hdown|]. intros _.
    apply total_bind; [apply Hdown|]. intros _. apply Hdown. }
  unfold run. destruct (Hmain tt) as (log & s' & [] & Hrun).
  rewrite Hrun. reflexivity.
Qed.

Lemma run_exits_zero_witness : (run sample_cfg refused_probes_world).2 = 0.
Proof.
  apply (run_exits_zero sample_cfg refused_probes_world
           (Args None "/tmp/out")
           (Identity "1234" "arn:aws:iam::1234:user/u" "AIDA"));
    try reflexivity.
  - intros e [= <-]. reflexivity.
  - intros e [= <-]. reflexivity.
  - repeat constructor; vm_compute; eauto.
  - intros e [= <-]. reflexivity.
  - intros e [=].
Defined.

(** *** What a run never does *)

Section LogAll.

Context (P : event → Prop).

Lemma log_all_quiet {S A : Type} (m : M S A) :
  (∀ s, ∃ s' r, m s = ([], s', r)) → log_all P m.
Proof.
  intros Hm s log s' r Hr. destruct (Hm s) as (t & r' & Hq).
  rewrite Hq in Hr. injection Hr as <- _ _. constructor.
Qed.

Lemma log_all_ret {S A : Type} (a : A) : log_all P (mret a : M S A).
Proof. apply log_all_quiet. intros s. by eexists _, _. Qed.

Lemma log_all_lift {S A : Type} (r : result A) : log_all P (lift r : M S A).
Proof. apply log_all_quiet. intros s. by eexists _, _. Qed.

Lemma log_all_raise {S A : Type} (e : exn) : log_all P (raise e : M S A).
Proof. apply log_all_quiet. intros s. by eexists _, _. Qed.

Lemma log_all_get {S : Type} : log_all P (get : M S S).
Proof. apply log_all_quiet. intros s. by eexists _, _. Qed.

Lemma log_all_modify {S : Type} (f : S → S) : log_all P (modify f).
Proof. apply log_all_quiet. intros s. by eexists _, _. Qed.

Lemma log_all_emit {S : Type} (ev : event) :
  P ev → log_all P (emit ev : M S unit).
Proof.
  intros Hev s log s' r [= <- _ _]. by repeat constructor.
Qed.

Lemma log_all_bind {S A B : Type} (m : M S A) (f : A → M S B) :
  log_all P m → (∀ a, log_all P (f a)) → log_all P (m ≫= f).
Proof.
  intros Hm Hf s log s' r. unfold mbind, M_bind.
  destruct (m s) as [[l1 s1] [a|e]] eqn:Em.
  - destruct (f a s1) as [[l2 s2] r2] eqn:Ef.
    intros [= <- _ _]. apply Forall_app. split; [by eapply Hm | by eapply Hf].
  - intros [= <- _ _]. by eapply Hm.
Qed.

Lemma log_all_try_except {S A : Type} (body : M S A) (handler : exn → M S A) :
  log_all P body → (∀ e, log_all P (handler e)) →
  log_all P (try_except body handler).
Proof.
  intros Hb Hh s log s' r. unfold try_except.
  destruct (body s) as [[l1 s1] [a|e]] eqn:Eb.
  - intros [= <- _ _]. by eapply Hb.
  - destruct (Py.is_Exception e).
    + destruct (handler e s1) as [[l2 s2] r2] eqn:Eh.
      intros [= <- _ _]. apply Forall_app. split; [by eapply Hb | by eapply Hh].
    + intros [= <- _ _]. by eapply Hb.
Qed.

Lemma log_all_locals {S S' A : Type} (init : S') (body : M S' A) :
  log_all P body → log_all P (locals init body : M S A).
Proof.
  intros Hb s log s' r. unfold locals.
  destruct (body init) as [[l t] r'] eqn:Eb.
  intros [= <- _ _]. by eapply Hb.
Qed.

Lemma log_all_for_in {A S : Type} (xs : list A) (body : A → M S flow) :
  (∀ x, log_all P (body x)) → log_all P (for_in xs body).
Proof.
  intros Hbody. induction xs as [|x rest IH]; simpl; [apply log_all_ret|].
  apply log_all_bind; [apply Hbody|]. intros [|]; [exact IH | apply log_all_ret].
Qed.

Lemma log_all_async_for {A S : Type} (c : call) (it : stream A)
    (body : A → M S flow) :
  P (Backend c) → (∀ x, log_all P (body x)) →
  log_all P (async_for c it body).
Proof.
  intros Hc Hbody. unfold async_for.
  generalize (failure it) as fail. intros fail.
  induction (items it) as [|x rest IH]; simpl.
  - apply log_all_bind; [by apply log_all_emit|]. intros _.
    destruct fail; [apply log_all_raise | apply log_all_ret].
  - apply log_all_bind; [by apply log_all_emit|]. intros _.
    apply log_all_bind; [apply Hbody|].
    intros [|]; [exact IH | apply log_all_ret].
Qed.

End LogAll.

Ltac log_all_step :=
  first
    [ apply log_all_locals
    | apply log_all_bind; [|intros ?]
    | apply log_all_try_except; [|intros ?]
    | apply log_all_for_in; intros ?
    | apply log_all_async_for; [reflexivity | intros ?]
    | apply log_all_emit; reflexivity
    | apply log_all_ret
    | apply log_all_lift
    | apply log_all_raise
    | apply log_all_get
    | apply log_all_modify
    | match goal with
      | |- log_all _ (if ?b then _ else _) => destruct b
      | |- log_all _ (match ?x with _ => _ end) => destruct x
      end ].

(** X15: no run ever requests an object.  Whatever the configuration and
    whatever the client libraries, the file system and the command line
    answer, the output of [main] holds no [get_object], signed download or
    [get_async] request. *)
Theorem run_never_fetches (cfg : config) (w : world) :
  Forall (fun ev => is_get_object ev = false) (run cfg w).1.
Proof.
  assert (Hmain : log_all (fun ev => is_get_object ev = false) (main cfg w)).
  { assert (Hdown : ∀ b keys outdir,
              log_all (fun ev => is_get_object ev = false)
                (download_files w b keys outdir : M unit unit)).
    { intros b keys outdir [] log s' r Hr.
      pose proof (download_files_requests_nothing w b keys outdir tt) as Hq.
      rewrite Hr in Hq. simpl in Hq.
      eapply Forall_impl; [|exact Hq].
      intros [| |[]|]; simpl; congruence. }
    unfold main, _require_creds, do_mkdir, check_aioboto3_sts,
      check_aioaws_s3, check_obstore_s3, list_aioboto3_contents,
      list_aioaws_contents, list_obstore_contents, aioboto3_page,
      aioboto3_object, break_at, print, download_aioboto3_files,
      download_aioaws_files, download_obstore_files.
    repeat first [apply Hdown | log_all_step]. }
  unfold run. destruct (main cfg w tt) as [[log s'] r] eqn:Hrun.
  simpl. by eapply Hmain.
Qed.

(** The identity check: its banner, its one request, and the outcome of
    STS as its own. *)
Lemma check_aioboto3_sts_shape (w : world) (s : unit) :
  ∃ l,
    check_aioboto3_sts w s
    = (Stdout "\n=== aioboto3: STS GetCallerIdentity ===" []
       :: Backend StsGetCallerIdentity :: l, s,
       match sts_get_caller_identity w with
       | Ok _ => Ok tt
       | Raise e => Raise e
       end)
    ∧ requests l = [].
Proof.
  unfold check_aioboto3_sts, locals, mbind, M_bind, print, emit, lift.
  destruct (sts_get_caller_identity w) as [who|e]; simpl;
    eexists; split; reflexivity.
Qed.

(** The output of a sequence starts with the output of its first part, and
    is just that when the first part raises. *)
Lemma bind_log {S A B : Type} (m : M S A) (f : A → M S B) (s s1 : S)
    (l1 : list event) (r1 : result A) :
  m s = (l1, s1, r1) →
  ∃ l2, ((m ≫= f) s).1.1 = (l1 ++ l2)%list ∧ (∀ e, r1 = Raise e → l2 = []).
Proof.
  intros Hm. unfold mbind, M_bind. rewrite Hm. destruct r1 as [a|e].
  - destruct (f a s1) as [[l2 s2] r2]. exists l2. split; [reflexivity|].
    discriminate.
  - exists []. split; [by rewrite app_nil_r | reflexivity].
Qed.

(** X17: the identity check comes first: in every run that makes a request
    at all, the first request is the STS call, and a run whose STS call
    raises makes no other request. *)
Theorem sts_is_first_request (cfg : config) (w : world) :
  match requests (run cfg w).1 with
  | [] => True
  | first :: others =>
      first = StsGetCallerIdentity
      ∧ (∀ e, sts_get_caller_identity w = Raise e → others = [])
  end.
Proof.
  unfold run, main.
  destruct (env_truthy (AWS_ACCESS_KEY_ID cfg)) eqn:Hid;
    [destruct (env_truthy (AWS_SECRET_ACCESS_KEY cfg)) eqn:Hsecret|].
  - unfold mbind at 1, M_bind at 1.
    rewrite (require_creds_present cfg tt Hid Hsecret).
    unfold mbind at 1, M_bind at 1. unfold lift at 1.
    destruct (parse_args w) as [a|e]; [|exact I].
    cbv zeta. unfold mbind at 1, M_bind at 1. unfold do_mkdir at 1.
    unfold mbind at 1, M_bind at 1. unfold emit at 1.
    destruct (mkdir w (outdir a)) as [e|]; [exact I|].
    unfold mret at 1, M_ret at 1.
    destruct (check_aioboto3_sts_shape w tt) as (l & Hsts & Hl).
    match goal with
    | |- context [(check_aioboto3_sts w ≫= ?K) ()] =>
        destruct (bind_log (check_aioboto3_sts w) K tt tt _ _ Hsts)
          as (l2 & Hlog & Hraise);
        destruct ((check_aioboto3_sts w ≫= K) ()) as [[L s1] R]
    end.
    simpl in Hlog. subst L. simpl.
    split; [reflexivity|]. intros e He. rewrite He in Hraise.
    rewrite (Hraise e eq_refl), app_nil_r. exact Hl.
  - destruct (require_creds_missing cfg tt (or_intror Hsecret)) as [names Hm].
    unfold mbind at 1, M_bind at 1. rewrite Hm. exact I.
  - destruct (require_creds_missing cfg tt (or_introl Hid)) as [names Hm].
    unfold mbind at 1, M_bind at 1. rewrite Hm. exact I.
Qed.

(** ** auth.py against download_bucket_files.py *)

Lemma sim_ret {S1 S2 A B : Type} (R : S1 → S2 → Prop) (V : A → B → Prop)
    (a : A) (b : B) :
  V a b → sim R V (mret a) (mret b).
Proof. intros HV s1 s2 HR. by split_and!. Qed.

Lemma sim_bind {S1 S2 A B A' B' : Type} (R : S1 → S2 → Prop)
    (V : A → B → Prop) (V' : A' → B' → Prop)
    (m1 : M S1 A) (m2 : M S2 B) (f1 : A → M S1 A') (f2 : B → M S2 B') :
  sim R V m1 m2 → (∀ a b, V a b → sim R V' (f1 a) (f2 b)) →
  sim R V' (m1 ≫= f1) (m2 ≫= f2).
Proof.
  intros Hm Hf s1 s2 HR. destruct (Hm s1 s2 HR) as (Hq & Ht & Ho).
  unfold mbind, M_bind.
  destruct (m1 s1) as [[l1 t1] [a|e1]], (m2 s2) as [[l2 t2] [b|e2]];
    simpl in *; try contradiction.
  - destruct (Hf a b Ho t1 t2 Ht) as (Hq' & Ht' & Ho').
    destruct (f1 a t1) as [[l1' t1'] r1], (f2 b t2) as [[l2' t2'] r2].
    simpl in *. rewrite !requests_app, Hq, Hq'. by split_and!.
  - by split_and!.
Qed.

Lemma sim_quiet {S1 S2 A B : Type} (R : S1 → S2 → Prop) (V : A → B → Prop)
    (ev1 ev2 : list event) (a : A) (b : B) :
  requests ev1 = requests ev2 → V a b →
  sim R V (fun s => (ev1, s, Ok a)) (fun s => (ev2, s, Ok b)).
Proof. intros Hq HV s1 s2 HR. by split_and!. Qed.

Lemma sim_print {S1 S2 : Type} (R : S1 → S2 → Prop)
    (t1 t2 : string) (a1 a2 : list parg) :
  sim R any (print t1 a1) (print t2 a2).
Proof. by apply sim_quiet. Qed.

Lemma sim_try_except {S1 S2 A B : Type} (R : S1 → S2 → Prop)
    (V : A → B → Prop) (b1 : M S1 A) (b2 : M S2 B)
    (h1 : exn → M S1 A) (h2 : exn → M S2 B) :
  sim R V b1 b2 → (∀ e, sim R V (h1 e) (h2 e)) →
  sim R V (try_except b1 h1) (try_except b2 h2).
Proof.
  intros Hb Hh s1 s2 HR. destruct (Hb s1 s2 HR) as (Hq & Ht & Ho).
  unfold try_except.
  destruct (b1 s1) as [[l1 t1] [a|e1]], (b2 s2) as [[l2 t2] [b|e2]];
    simpl in *; try contradiction.
  - by split_and!.
  - subst e2. destruct (Py.is_Exception e1); [|by split_and!].
    destruct (Hh e1 t1 t2 Ht) as (Hq' & Ht' & Ho').
    destruct (h1 e1 t1) as [[l1' t1'] r1], (h2 e1 t2) as [[l2' t2'] r2].
    simpl in *. rewrite !requests_app, Hq, Hq'. by split_and!.
Qed.

Lemma sim_locals {S1 S2 T1 T2 A B : Type} (R : S1 → S2 → Prop)
    (R' : T1 → T2 → Prop) (i1 : T1) (i2 : T2)
    (b1 : M T1 A) (b2 : M T2 B) :
  R' i1 i2 → sim R' any b1 b2 →
  sim R any (locals i1 b1 : M S1 A) (locals i2 b2 : M S2 B).
Proof.
  intros Hi Hb s1 s2 HR. destruct (Hb i1 i2 Hi) as (Hq & Ht & Ho).
  unfold locals.
  destruct (b1 i1) as [[l1 t1] [a|e1]], (b2 i2) as [[l2 t2] [b|e2]];
    simpl in *; by split_and!.
Qed.

Lemma sim_for_in {S1 S2 A : Type} (R : S1 → S2 → Prop) (xs : list A)
    (b1 : A → M S1 flow) (b2 : A → M S2 flow) :
  (∀ x, sim R eq (b1 x) (b2 x)) → sim R any (for_in xs b1) (for_in xs b2).
Proof.
  intros Hb. induction xs as [|x rest IH]; simpl; [by apply sim_ret|].
  eapply sim_bind; [apply Hb|]. intros f ? <-.
  destruct f; [exact IH | by apply sim_ret].
Qed.

Lemma sim_async_for {S1 S2 A : Type} (R : S1 → S2 → Prop) (c : call)
    (it : stream A) (b1 : A → M S1 flow) (b2 : A → M S2 flow) :
  (∀ x, sim R eq (b1 x) (b2 x)) →
  sim R any (async_for c it b1) (async_for c it b2).
Proof.
  intros Hb. unfold async_for. generalize (failure it) as fail. intros fail.
  induction (items it) as [|x rest IH]; simpl.
  - eapply sim_bind;
      [by apply (sim_quiet R any [Backend c] [Backend c] tt tt)|].
    intros _ _ _. destruct fail as [e|]; [|by apply sim_ret].
    intros s1 s2 HR. by split_and!.
  - eapply sim_bind;
      [by apply (sim_quiet R any [Backend c] [Backend c] tt tt)|].
    intros _ _ _. eapply sim_bind; [apply Hb|]. intros f ? <-.
    destruct f; [exact IH | by apply sim_ret].
Qed.

Lemma sim_break_at (max_items : Z) :
  sim same_count eq (Auth.break_at max_items) (break_at max_items).
Proof.
  intros count st HR. unfold Auth.break_at. rewrite break_at_spec.
  unfold same_count in HR. subst count.
  unfold mbind, M_bind, get. simpl.
  destruct (max_items <=? st.2); by split_and!.
Qed.

Lemma sim_refl {S A : Type} (m : M S A) : sim eq eq m m.
Proof.
  intros s ? <-. split_and!; try reflexivity.
  destruct (m s) as [[l t] [a|e]]; reflexivity.
Qed.

Lemma sim_weaken {S1 S2 A B : Type} (R : S1 → S2 → Prop)
    (V V' : A → B → Prop) (m1 : M S1 A) (m2 : M S2 B) :
  (∀ a b, V a b → V' a b) → sim R V m1 m2 → sim R V' m1 m2.
Proof.
  intros HV Hm s1 s2 HR. destruct (Hm s1 s2 HR) as (Hq & Ht & Ho).
  split_and!; try done.
  destruct (m1 s1) as [[l1 t1] [a|e1]], (m2 s2) as [[l2 t2] [b|e2]];
    simpl in *; try done. by apply HV.
Qed.

Lemma sim_lift {S1 S2 A : Type} (R : S1 → S2 → Prop) (r : result A) :
  sim R eq (lift r) (lift r).
Proof. intros s1 s2 HR. split_and!; try done. by destruct r. Qed.

Lemma sim_modify {S1 S2 : Type} (R : S1 → S2 → Prop) (f1 : S1 → S1)
    (f2 : S2 → S2) :
  (∀ s1 s2, R s1 s2 → R (f1 s1) (f2 s2)) → sim R any (modify f1) (modify f2).
Proof. intros Hf s1 s2 HR. split_and!; try done. by apply Hf. Qed.

(** A step of the second computation alone that requests nothing, leaves
    the variables and ends normally. *)
Lemma sim_right_step {S1 S2 A B C : Type} (R : S1 → S2 → Prop)
    (V : A → B → Prop) (m1 : M S1 A) (m2 : M S2 C) (f2 : C → M S2 B) (c : C) :
  (∀ s, ∃ l, m2 s = (l, s, Ok c) ∧ requests l = []) →
  sim R V m1 (f2 c) → sim R V m1 (m2 ≫= f2).
Proof.
  intros Hm Hf s1 s2 HR. destruct (Hf s1 s2 HR) as (Hq & Ht & Ho).
  destruct (Hm s2) as (l & Hl & Hlq). unfold mbind, M_bind. rewrite Hl.
  destruct (f2 c s2) as [[l2 t2] r2]. simpl in *.
  rewrite requests_app, Hlq. by split_and!.
Qed.

(** A tail of the second computation alone, likewise. *)
Lemma sim_right_tail {S1 S2 A B C : Type} (R : S1 → S2 → Prop)
    (V : A → B → Prop) (m1 : M S1 A) (m2 : M S2 B) (f2 : B → M S2 C) :
  sim R V m1 m2 →
  (∀ b s, ∃ l c, f2 b s = (l, s, Ok c) ∧ requests l = []) →
  sim R any m1 (m2 ≫= f2).
Proof.
  intros Hm Hf s1 s2 HR. destruct (Hm s1 s2 HR) as (Hq & Ht & Ho).
  unfold mbind, M_bind.
  destruct (m1 s1) as [[l1 t1] [a|e1]], (m2 s2) as [[l2 t2] [b|e2]];
    simpl in *; try contradiction.
  - destruct (Hf b t2) as (l & c & Hl & Hlq). rewrite Hl. simpl.
    rewrite requests_app, Hlq, app_nil_r. by split_and!.
  - by split_and!.
Qed.

Lemma requests_of_no_backend (l : list event) :
  Forall (fun ev => is_backend_call ev = false) l → requests l = [].
Proof.
  induction 1 as [|ev l Hev Hl IH]; [reflexivity|].
  destruct ev; try discriminate; exact IH.
Qed.

(** The three listings of [auth.py] go the way of the listings of
    [download_bucket_files.py]. *)
Lemma sim_list_aioboto3 (cfg : config) (w : world) (max_items : Z) :
  sim (S1 := unit) (S2 := unit) eq any
    (Auth.list_aioboto3_contents cfg w max_items)
    (list_aioboto3_contents cfg w max_items).
Proof.
  unfold Auth.list_aioboto3_contents, list_aioboto3_contents.
  apply (sim_locals eq same_count); [by unfold same_count|].
  eapply sim_bind; [apply sim_print|]. intros _ _ _.
  destruct (negb (bucket_set cfg)).
  { intros s1 s2 HR. by split_and!. }
  eapply (sim_bind _ any).
  - apply sim_async_for. intros pg. unfold aioboto3_page.
    eapply (sim_bind _ any); [|intros _ _ _; apply sim_break_at].
    apply sim_for_in. intros obj. unfold aioboto3_object.
    eapply sim_bind; [apply sim_lift|]. intros key ? <-.
    eapply sim_bind; [apply sim_print|]. intros _ _ _.
    eapply sim_bind; [|intros _ _ _; apply sim_break_at].
    apply sim_modify. unfold same_count. intros count st ->. reflexivity.
  - intros _ _ _ count st HR. by split_and!.
Qed.

Lemma sim_list_aioaws (cfg : config) (w : world) (max_items : Z) :
  sim (S1 := unit) (S2 := unit) eq any
    (Auth.list_aioaws_contents cfg w max_items)
    (list_aioaws_contents cfg w max_items).
Proof.
  unfold Auth.list_aioaws_contents, list_aioaws_contents.
  apply (sim_locals eq same_count); [by unfold same_count|].
  eapply sim_bind; [apply sim_print|]. intros _ _ _.
  destruct (negb (bucket_set cfg)).
  { intros s1 s2 HR. by split_and!. }
  eapply (sim_right_tail _ any);
    [|intros b s; exists [], s.1; split; reflexivity].
  apply sim_try_except; [|intros e; apply sim_print].
  eapply (sim_bind _ any).
  - apply sim_async_for. intros obj.
    destruct (Py.getattr obj "key") as [key|e] eqn:Hkey.
    + eapply sim_bind; [apply sim_lift|]. intros ? ? <-.
      eapply sim_bind; [apply sim_print|]. intros _ _ _.
      eapply (sim_right_step _ _ _ _ _ key);
        [intros s; by exists []|].
      eapply sim_bind; [|intros _ _ _; apply sim_break_at].
      apply sim_modify. unfold same_count. intros count st ->. reflexivity.
    + intros s1 s2 HR. by split_and!.
  - intros _ _ _ count st HR. by split_and!.
Qed.

Lemma sim_list_obstore (cfg : config) (w : world) (max_items : Z) :
  sim (S1 := unit) (S2 := unit) eq any
    (Auth.list_obstore_contents cfg w max_items)
    (list_obstore_contents cfg w max_items).
Proof.
  unfold Auth.list_obstore_contents, list_obstore_contents.
  apply (sim_locals eq same_count); [by unfold same_count|].
  eapply sim_bind; [apply sim_print|]. intros _ _ _.
  destruct (negb (bucket_set cfg)).
  { intros s1 s2 HR. by split_and!. }
  eapply (sim_right_tail _ any);
    [|intros b s; exists [], s.1; split; reflexivity].
  apply sim_try_except; [|intros e; apply sim_print].
  eapply (sim_bind _ any).
  - apply sim_async_for. intros batch.
    eapply (sim_bind _ any); [|intros _ _ _; apply sim_break_at].
    apply sim_for_in. intros e. cbv zeta.
    eapply sim_bind; [apply sim_print|]. intros _ _ _.
    eapply sim_bind; [|intros _ _ _; apply sim_break_at].
    apply sim_modify. unfold same_count. intros count st ->. reflexivity.
  - intros _ _ _ count st HR. by split_and!.
Qed.

Lemma quiet_bind {S A B : Type} (m : M S A) (f : A → M S B) :
  quiet m → (∀ a, quiet (f a)) → quiet (m ≫= f).
Proof.
  intros Hm Hf s. destruct (Hm s) as (l1 & a & H1 & Hq1).
  destruct (Hf a s) as (l2 & b & H2 & Hq2).
  exists (l1 ++ l2)%list, b. unfold mbind, M_bind. rewrite H1, H2.
  split; [reflexivity|]. by rewrite requests_app, Hq1, Hq2.
Qed.

Lemma quiet_download_files (w : world) (b : backend) (keys : list pyval)
    (outdir : string) :
  (∀ p, mkdir w p = None) →
  quiet (download_files w b keys outdir : M unit unit).
Proof.
  intros Hmkdir [].
  destruct (download_files_total w b keys outdir tt (Hmkdir _)) as [l Hl].
  exists l, tt. split; [exact Hl|].
  apply requests_of_no_backend.
  pose proof (download_files_requests_nothing w b keys outdir tt) as Hq.
  by rewrite Hl in Hq.
Qed.

Lemma quiet_max_items_of_argv (cfg : config) (argv : list string)
    (int_of : string → option Z) (s : unit) (n : Z) :
  (Auth.max_items_of_argv cfg argv int_of s).2 = Ok n →
  ∃ l, Auth.max_items_of_argv cfg argv int_of s = (l, s, Ok n)
       ∧ requests l = [].
Proof.
  unfold Auth.max_items_of_argv.
  destruct argv as [|arg rest]; [|destruct (int_of arg) as [k|]];
    intros [= <-]; eexists; split; reflexivity.
Qed.

(** X18: the two tools ask the same of the backends.  When the arguments
    of the download tool parse, its directories can be created, and
    [auth.py] reads from [sys.argv] the limit that [--limit] gives, a run of
    [auth.py] and a run of [download_bucket_files.py] make the same
    requests in the same order and exit with the same status: the download
    tool adds no request to the probes and listings. *)
Theorem tools_make_same_requests (cfg : config) (w : world)
    (argv : list string) (int_of : string → option Z) (a : args) :
  parse_args w = Ok a →
  (∀ p, mkdir w p = None) →
  (Auth.max_items_of_argv cfg argv int_of tt).2
  = Ok (default (DEFAULT_MAX_ITEMS cfg) (limit a)) →
  requests (Auth.run cfg w argv int_of).1 = requests (run cfg w).1
  ∧ (Auth.run cfg w argv int_of).2 = (run cfg w).2.
Proof.
  intros Hargs Hmkdir Hlimit.
  assert (Hsim : sim eq any (Auth.main cfg w argv int_of) (main cfg w)).
  { unfold Auth.main, main.
    eapply sim_bind; [apply sim_refl|]. intros _ _ _.
    eapply (sim_bind _
              (fun n a' => n = default (DEFAULT_MAX_ITEMS cfg) (limit a)
                           ∧ a' = a)).
    { intros [] ? <-. unfold lift. rewrite Hargs.
      destruct (quiet_max_items_of_argv cfg argv int_of tt _ Hlimit)
        as (l & Hl & Hq).
      rewrite Hl. by split_and!. }
    intros n a' [-> ->]. cbv zeta.
    eapply (sim_right_step _ _ _ _ _ tt).
    { intros s. unfold do_mkdir, mbind, M_bind, emit. rewrite Hmkdir.
      by eexists. }
    eapply sim_bind; [apply sim_refl|]. intros _ _ _.
    eapply sim_bind; [apply sim_refl|]. intros _ _ _.
    eapply sim_bind; [apply sim_refl|]. intros _ _ _.
    eapply sim_bind; [apply sim_list_aioboto3|]. intros _ k1 _.
    eapply sim_bind; [apply sim_list_aioaws|]. intros _ k2 _.
    eapply sim_right_tail; [apply sim_list_obstore|]. intros k3 s.
    assert (Hquiet : quiet
              (download_aioboto3_files w k1 (outdir a)
               ≫= fun _ : unit =>
                    download_aioaws_files w k2 (outdir a)
                    ≫= fun _ : unit =>
                         download_obstore_files w k3 (outdir a)
               : M unit unit)).
    { apply quiet_bind; [by apply quiet_download_files|]. intros _.
      apply quiet_bind; [by apply quiet_download_files|]. intros _.
      by apply quiet_download_files. }
    destruct (Hquiet s) as (l & c & Hl & Hq).
    by exists l, c. }
  destruct (Hsim tt tt eq_refl) as (Hq & _ & Ho).
  unfold Auth.run, run.
  destruct (Auth.main cfg w argv int_of tt) as [[l1 s1] r1],
    (main cfg w tt) as [[l2 s2] r2]. simpl in *.
  split; [exact Hq|].
  destruct r1 as [[]|e1], r2 as [[]|e2]; simpl in *; try contradiction;
    [reflexivity | by subst].
Qed.

Lemma tools_make_same_requests_witness :
  requests (Auth.run sample_cfg sample_world ["100"]
              (fun _ => Some 100)).1
  = requests (run sample_cfg sample_world).1
  ∧ (Auth.run sample_cfg sample_world ["100"] (fun _ => Some 100)).2
    = (run sample_cfg sample_world).2.
Proof.
  apply (tools_make_same_requests sample_cfg sample_world ["100"]
           (fun _ => Some 100) (Args None "/tmp/out")); reflexivity.
Defined.
